(** * alexa-skill: request authentication for an Alexa skill web service

    A shallow embedding of the Go packages [server] (certificate and
    signature validation in front of the skill handler) and [alexa]
    (request envelope, routing [App], [StrictVerificationApp]) together
    with the properties of the authentication pipeline.

    Layout: the part of the Go runtime and standard library the code relies
    on ([golang]), the two packages ([alexa], [server]), canned library
    material for closed examples ([canned]), then the theorems. *)

From Stdlib Require Import ZArith QArith Qabs Lia Bool.
From stdpp Require Import base option list strings gmap.

Local Open Scope Z_scope.

(* ===================================================================== *)
(** * The Go runtime and standard library, as far as the code uses them   *)
(* ===================================================================== *)

Module golang.

Definition bytes := list Byte.byte.

(** Run-time panics the code can raise. *)
Inductive panic : Set :=
| NilDereference        (* invalid memory address or nil pointer dereference *)
| InterfaceConversion.  (* x.(T) on a value whose dynamic type is not T *)

(** A Go call either returns its results or panics. *)
Inductive result (A : Type) : Type :=
| Val (a : A)
| Panicked (p : panic).
Arguments Val {A} a.
Arguments Panicked {A} p.

Definition bind {A B} (m : result A) (k : A -> result B) : result B :=
  match m with
  | Val a => k a
  | Panicked p => Panicked p
  end.

#[global] Instance result_ret : MRet result := @Val.
#[global] Instance result_bind : MBind result := fun A B k m => bind m k.

(** The [error] interface: the two dynamic types that occur are the string
    errors of [errors.New] / [fmt.Errorf] and the package's own
    [alexa.ValidationError]; [nil] is [None]. *)
Inductive error : Set :=
| errorString (s : string)
| ValidationError (Message : string).

Definition Error (e : error) : string :=
  match e with
  | errorString s => s
  | ValidationError m => m
  end.

Definition errors_New (s : string) : error := errorString s.

(** [_, ok := err.(alexa.ValidationError)] *)
Definition isValidationError (e : error) : bool :=
  match e with
  | ValidationError _ => true
  | errorString _ => false
  end.

(** [interface{}] values, as far as they are compared or printed. *)
Inductive any : Set :=
| AnyNil
| AnyString (s : string)
| AnyInt (z : Z)
| AnyBytes (b : bytes).

(** [v == "lit"] for [v interface{}]: true only for a string of that value. *)
Definition any_eq_string (v : any) (s : string) : bool :=
  match v with
  | AnyString s' => String.eqb s' s
  | _ => false
  end.

Definition HasPrefix (s prefix : string) : bool := String.prefix prefix s.

(** [context.Context]: opaque to the code, which only passes it on. *)
Inductive context_Context : Set :=
| Background
| WithValue (parent : context_Context) (key val : string).

(** ** package time *)

(** An instant: seconds since the Unix epoch and the nanoseconds within
    that second ([0 <= nsec < 10^9] for the values the library builds). *)
Record Time : Set := mkTime { sec : Z; nsec : Z }.

Definition Unix (t : Time) : Z := sec t.

(** [time.Duration] is an int64 count of nanoseconds. *)
Definition Duration := Z.
Definition Second : Duration := 1000000000.
Definition minDuration : Duration := - 2 ^ 63.
Definition maxDuration : Duration := 2 ^ 63 - 1.

(** [t.Sub(u)]: the difference, saturated at the range of [Duration]. *)
Definition Sub (t u : Time) : Duration :=
  let d := (sec t - sec u) * Second + (nsec t - nsec u) in
  if d <? minDuration then minDuration
  else if maxDuration <? d then maxDuration
  else d.

(** [d.Seconds()] is [float64(d / Second) + float64(d % Second) / 1e9] with
    Go's truncated division.  The float64 is represented by the rational
    it approximates: both summands are exact up to one rounding far below
    a nanosecond at the magnitudes compared here, so comparisons against a
    whole number of seconds agree with the rational ones. *)
Definition Seconds (d : Duration) : Q :=
  (inject_Z (Z.quot d Second) + (Z.rem d Second # 1000000000))%Q.

Definition math_Abs (x : Q) : Q := Qabs x.

(** ** package io *)

(** What a reader yields: the successive chunks handed out by [Read], and
    how the stream ends ([None] is [io.EOF], [Some e] a read error). *)
Record Reader : Set := mkReader { chunks : list bytes; final : option string }.

Definition NewReader (b : bytes) : Reader := mkReader [b] None.

(** [io.Copy(dst, io.TeeReader(src, buf))]: every chunk read from [src] is
    first appended to [buf] by the tee and then written to [dst]; neither a
    [bytes.Buffer] nor a hash ever fails a write.  Returns what [dst] and
    [buf] hold afterwards and the error of the copy ([io.EOF] is not one). *)
Fixpoint copy_tee (cs : list bytes) (dst buf : bytes) : bytes * bytes :=
  match cs with
  | [] => (dst, buf)
  | c :: cs' => copy_tee cs' (dst ++ c) (buf ++ c)
  end.

Definition io_Copy_Tee (src : Reader) (dst buf : bytes)
  : bytes * bytes * option error :=
  (copy_tee (chunks src) dst buf, option_map errorString (final src)).

(** [ioutil.ReadAll] *)
Definition ReadAll (r : Reader) : bytes * option error :=
  (concat (chunks r), option_map errorString (final r)).

(** ** package net/url, encoding/pem, crypto/x509 *)

Record URL : Set := mkURL { Scheme : string; Host : string; Path : string }.

Record pem_Block : Set := mkBlock { Bytes : bytes }.

Record AttributeTypeAndValue : Set := mkAttr { Type_ : list Z; Value : any }.

Record pkix_Name : Set := mkName { Names : list AttributeTypeAndValue }.

Record rsa_PublicKey : Set := mkRSA { N : Z; E : Z }.

(** The dynamic type of [Certificate.PublicKey]. *)
Inductive PublicKeyValue : Set :=
| RSAKey (k : rsa_PublicKey)      (* *rsa.PublicKey *)
| ECDSAKey (curve : string) (x y : Z)  (* *ecdsa.PublicKey *)
| Ed25519Key (k : bytes)          (* ed25519.PublicKey *)
| NoKey.                          (* nil: unknown algorithm *)

Record Certificate : Set := mkCert {
  NotBefore : Time;
  NotAfter : Time;
  Subject : pkix_Name;
  DNSNames : list string;            (* the subject alternative names *)
  PublicKey : PublicKeyValue
}.

(** ** package net/http *)

(** [http.Header] maps a key to its values; [Get] is the first one or the
    empty string.  Keys stand for their canonical form. *)
Definition Header_Get (h : gmap string (list string)) (key : string) : string :=
  match h !! key with
  | Some (v :: _) => v
  | _ => ""
  end.

Record http_Request : Type := mkRequest {
  Header : gmap string (list string);
  Body : option Reader;      (* [None]: a body wrapping a nil reader *)
  req_Context : context_Context
}.

(** The library functions whose bodies are outside the repository.  A
    value-or-error pair is a sum, the error being its message. *)
Class Stdlib : Type := {
  url_Parse : string -> URL + string;
  pem_Decode : bytes -> option pem_Block;
  x509_ParseCertificate : bytes -> Certificate + string;
  base64_DecodeString : string -> bytes * option string;
  sha1_Sum : bytes -> bytes;
  rsa_VerifyPKCS1v15 : rsa_PublicKey -> bytes -> bytes -> option string;
  time_Parse_RFC3339 : string -> Time + string;
  Time_String : Time -> string;
  fmt_float : Q -> string
}.

End golang.

(* ===================================================================== *)
(** * package alexa                                                       *)
(* ===================================================================== *)

Module alexa.
Import golang.

Record RequestApplication : Set := { ApplicationID : string }.

Record Session : Type := {
  New : bool;
  SessionID : string;
  Attributes : option (gmap string any);   (* Attributes.String *)
  Application : RequestApplication
}.

Record Request : Set := {
  Type_ : string;
  RequestID : string;
  Timestamp : string;
  IntentName : string;                     (* Intent.Name *)
  Locale : string;
  Token : string;
  OffsetInMilliseconds : Z
}.

Record Context : Set := {
  PlayerActivity : string;                 (* AudioPlayer.PlayerActivity *)
  SystemApplication : RequestApplication;  (* System.Application *)
  APIEndpoint : string                     (* System.APIEndpoint *)
}.

(** RequestEnvelope is the data provided by the alexa skill service when
    initiating a request; the three parts are pointers and may be nil. *)
Record RequestEnvelope : Type := {
  Version : string;
  Session_ : option Session;
  Request_ : option Request;
  Context_ : option Context
}.

Record Directive : Set := {
  DirectiveType : string;
  PlayBehavior : string
}.

Record Response : Set := {
  OutputSpeech : option (string * string);  (* Type, Text *)
  Directives : option (list Directive);
  ShouldSessionEnd : bool
}.

Record ResponseEnvelope : Type := {
  RespVersion : string;
  SessionAttributes : option (gmap string any);
  Response_ : option Response
}.

Definition sdkVersion : string := "1.0".

(** SessionHandler handles the main Launch, Intent and SessionEnded requests *)
Record SessionHandler : Type := {
  OnLaunch : context_Context -> Request -> option Session -> option Context
             -> result (option Response * option error);
  OnIntent : context_Context -> Request -> option Session -> option Context
             -> result (option Response * option error);
  OnSessionEnded : context_Context -> Request -> option Session -> option Context
             -> result (option error)
}.

(** AudioHandler handles AudioPlayer requests *)
Record AudioHandler : Type := {
  OnPlaybackStarted : context_Context -> Request -> option Context
             -> result (list Directive * option error);
  OnPlaybackFinished : context_Context -> Request -> option Context
             -> result (list Directive * option error);
  OnPlaybackStopped : context_Context -> Request -> option Context
             -> result (option error);
  OnPlaybackNearlyFinished : context_Context -> Request -> option Context
             -> result (list Directive * option error);
  OnPlaybackFailed : context_Context -> Request -> option Context
             -> result (list Directive * option error)
}.

(** App responds to Alexa requests by routing them to the correct handler;
    an interface field left unset is nil. *)
Record App : Type := {
  App_ApplicationID : string;
  App_SessionHandler : option SessionHandler;
  App_AudioHandler : option AudioHandler
}.

(** Calling a method through an interface value or a field through a
    pointer: nil panics. *)
Definition deref {A} (p : option A) : result A :=
  match p with
  | Some a => Val a
  | None => Panicked NilDereference
  end.

Definition handleAudio (a : App) (ctx : context_Context) (r : RequestEnvelope)
  : result (option Response * option error) :=
  req ← deref (Request_ r);
  let ty := Type_ req in
  '(directives, err) ←
    (if String.eqb ty "AudioPlayer.PlaybackStarted" then
       h ← deref (App_AudioHandler a); OnPlaybackStarted h ctx req (Context_ r)
     else if String.eqb ty "AudioPlayer.PlaybackFinished" then
       h ← deref (App_AudioHandler a); OnPlaybackFinished h ctx req (Context_ r)
     else if String.eqb ty "AudioPlayer.PlaybackStopped" then
       h ← deref (App_AudioHandler a);
       err ← OnPlaybackStopped h ctx req (Context_ r); Val ([], err)
     else if String.eqb ty "AudioPlayer.PlaybackNearlyFinished" then
       h ← deref (App_AudioHandler a); OnPlaybackNearlyFinished h ctx req (Context_ r)
     else if String.eqb ty "AudioPlayer.PlaybackFailed" then
       h ← deref (App_AudioHandler a); OnPlaybackFailed h ctx req (Context_ r)
     else
       Val ([], Some (ValidationError ("unhandled request type: " +:+ ty))));
  match err with
  | Some e => Val (None, Some e)
  | None =>
      let resp := {| OutputSpeech := None; Directives := None; ShouldSessionEnd := true |} in
      if (0 <? Z.of_nat (length directives)) then
        Val (Some {| OutputSpeech := None; Directives := Some directives;
                     ShouldSessionEnd := true |}, None)
      else Val (Some resp, None)
  end.

(** Handle inspects the request type and forwards the request to the
    appropriate handler *)
Definition App_Handle (a : App) (ctx : context_Context) (r : RequestEnvelope)
  : result (option ResponseEnvelope * option error) :=
  req ← deref (Request_ r);
  let ty := Type_ req in
  '(resp, err) ←
    (if String.eqb ty "LaunchRequest" then
       h ← deref (App_SessionHandler a); OnLaunch h ctx req (Session_ r) (Context_ r)
     else if String.eqb ty "IntentRequest" then
       h ← deref (App_SessionHandler a); OnIntent h ctx req (Session_ r) (Context_ r)
     else if String.eqb ty "SessionEndedRequest" then
       h ← deref (App_SessionHandler a);
       err ← OnSessionEnded h ctx req (Session_ r) (Context_ r); Val (None, err)
     else if HasPrefix ty "AudioPlayer." then
       handleAudio a ctx r
     else
       Val (None, Some (ValidationError ("unhandled request type: " +:+ ty))));
  match err with
  | Some e =>
      if isValidationError e then Val (None, Some e)
      else Val (None, Some (errorString
             ("failed to handle " +:+ ty +:+ " request: " +:+ Error e)))
  | None =>
      let attrs := match Session_ r with
                   | Some s => Attributes s
                   | None => None
                   end in
      Val (Some {| RespVersion := sdkVersion; SessionAttributes := attrs;
                   Response_ := resp |}, None)
  end.

(** StrictVerificationApp performs additional verification of the request *)
Record StrictVerificationApp : Type := { App_ : App }.

Section Validation.
Context `{Stdlib}.

Definition validateApplicationID (r : RequestEnvelope) (applicationID : string)
  : result (option error) :=
  s ← deref (Session_ r);
  let reqAppID := ApplicationID (Application s) in
  if String.eqb reqAppID "" then
    Val (Some (ValidationError "request applicationID missing"))
  else if negb (String.eqb reqAppID applicationID) then
    Val (Some (ValidationError ("request applicationID mismatch: " +:+ reqAppID)))
  else Val None.

Definition validateTimestamp (r : RequestEnvelope) (now : Time) (maxDiffSeconds : Q)
  : result (option error) :=
  req ← deref (Request_ r);
  match time_Parse_RFC3339 (Timestamp req) with
  | inr err =>
      Val (Some (ValidationError
             ("invalid timestamp " +:+ Timestamp req +:+ ": " +:+ err)))
  | inl timestamp =>
      let diff := Seconds (Sub now timestamp) in
      if negb (Qle_bool (math_Abs diff) maxDiffSeconds) then
        Val (Some (ValidationError
               ("timestamp " +:+ Time_String timestamp +:+ " difference of "
                +:+ fmt_float diff +:+ "s exceeds " +:+ fmt_float maxDiffSeconds +:+ "s")))
      else Val None
  end.

(** Handle verifies the request before handing it off to the wrapped App.
    [now] is the reading of [time.Now()] taken between the two checks. *)
Definition Handle (s : StrictVerificationApp) (ctx : context_Context)
    (r : RequestEnvelope) (now : Time)
  : result (option ResponseEnvelope * option error) :=
  err ← validateApplicationID r (App_ApplicationID (App_ s));
  match err with
  | Some e => Val (None, Some e)
  | None =>
      err ← validateTimestamp r now (inject_Z 150);
      match err with
      | Some e => Val (None, Some e)
      | None => App_Handle (App_ s) ctx r
      end
  end.

End Validation.
End alexa.

(* ===================================================================== *)
(** * package server                                                      *)
(* ===================================================================== *)

Module server.
Import golang.

(** CertReader returns the contents of the cert at the provided url *)
Definition CertReader : Type := context_Context -> string -> bytes * option error.

(** What a handler does to the outside: a reply written with [http.Error],
    and the call of the wrapped [http.Handler] with the request it is
    given. *)
Inductive event : Type :=
| http_Error (body : string) (code : Z)
| ServeHTTP (r : http_Request).

(** A handler body: the events so far and how it ended. *)
Definition io (A : Type) : Type := list event * result A.

#[global] Instance io_ret : MRet io := fun A a => ([], Val a).
#[global] Instance io_bind : MBind io := fun A B k m =>
  match m with
  | (t, Val a) => let '(t', b) := k a in (t ++ t', b)
  | (t, Panicked p) => (t, Panicked p)
  end.

Definition emit (e : event) : io unit := ([e], Val tt).
Definition lift {A} (m : result A) : io A := ([], m).

Definition StatusUnauthorized : Z := 401.

Section Server.
Context `{Stdlib}.

Definition verifyCertURL (path : string) : result (option error) :=
  match url_Parse path with
  | inr _ => Panicked NilDereference   (* the error is dropped and link is nil *)
  | inl link =>
      if negb (String.eqb (Scheme link) "https") then
        Val (Some (errors_New "cert url not https"))
      else if negb (String.eqb (Host link) "s3.amazonaws.com")
              && negb (String.eqb (Host link) "s3.amazonaws.com:443") then
        Val (Some (errors_New "cert not on s3"))
      else if negb (HasPrefix (Path link) "/echo.api/") then
        Val (Some (errors_New "not an echo cert"))
      else Val None
  end.

(** The loop over [cert.Subject.Names]: the flag is set at a match and
    never cleared. *)
Definition foundName (names : list AttributeTypeAndValue) : bool :=
  fold_left
    (fun found altName =>
       if any_eq_string (Value altName) "echo-api.amazon.com" then true else found)
    names false.

Definition readValidateCertificate (r : http_Request) (certReader : CertReader)
    (now : Time) : result (option Certificate * option error) :=
  let certURL := Header_Get (Header r) "SignatureCertChainUrl" in
  err ← verifyCertURL certURL;
  match err with
  | Some e => Val (None, Some e)
  | None =>
      match certReader (req_Context r) certURL with
      | (_, Some e) =>
          Val (None, Some (errorString
                 ("failed to read cert at " +:+ certURL +:+ ": " +:+ Error e)))
      | (certContents, None) =>
          match pem_Decode certContents with
          | None => Val (None, Some (errors_New "failed to parse certificate PEM"))
          | Some block =>
              match x509_ParseCertificate (Bytes block) with
              | inr e => Val (None, Some (errorString e))
              | inl cert =>
                  if (Unix now <? Unix (NotBefore cert))
                     || (Unix now >? Unix (NotAfter cert)) then
                    Val (None, Some (errors_New "certificate expired"))
                  else if negb (foundName (Names (Subject cert))) then
                    Val (None, Some (errors_New "certification invalid"))
                  else Val (Some cert, None)
              end
          end
      end
  end.

(** The returned [io.Reader] is the buffer, given by its contents. *)
Definition readValidateBody (r : http_Request) (cert : option Certificate)
  : result (option bytes * option error) :=
  match cert with
  | None => Panicked NilDereference          (* cert.PublicKey on a nil cert *)
  | Some c =>
      let publicKey := PublicKey c in
      let encryptedSig := fst (base64_DecodeString (Header_Get (Header r) "Signature")) in
      match Body r with
      | None => Panicked NilDereference
      | Some body =>
          let '(hash, bodyBuf, err) := io_Copy_Tee body [] [] in
          match err with
          | Some e => Val (None, Some e)
          | None =>
              match publicKey with
              | RSAKey k =>
                  match rsa_VerifyPKCS1v15 k (sha1_Sum hash) encryptedSig with
                  | Some _ => Val (None, Some (errors_New "signature match failed"))
                  | None => Val (Some bodyBuf, None)
                  end
              | _ => Panicked InterfaceConversion   (* publicKey.( *rsa.PublicKey) *)
              end
          end
      end
  end.

(** NewValidatingHandler wraps a http.Handler and validates the request is
    an authentic request from the alexa skill service.  [now] is the reading
    of [time.Now()]; the wrapped handler is the [ServeHTTP] event. *)
Definition NewValidatingHandler (certReader : CertReader) (now : Time)
    (r : http_Request) : io unit :=
  '(cert, err) ← lift (readValidateCertificate r certReader now);
  _ ← match err with
      | Some e => emit (http_Error ("Certificate validation failed: " +:+ Error e)
                          StatusUnauthorized)
      | None => mret tt
      end;
  '(body, err) ← lift (readValidateBody r cert);
  _ ← match err with
      | Some e => emit (http_Error ("Signature validation failed: " +:+ Error e)
                          StatusUnauthorized)
      | None => mret tt
      end;
  (* restore request body *)
  let r' := mkRequest (Header r) (option_map NewReader body) (req_Context r) in
  emit (ServeHTTP r').

End Server.
End server.

(* ===================================================================== *)
(** * Canned library material                                             *)
(* ===================================================================== *)

(** The answers of the library functions on the inputs of the closed
    examples below: two certificate URLs in their accepted forms, one over
    plain http, one string [url.Parse] refuses; an RSA and an ECDSA leaf
    certificate; one body with its digest and signature; one timestamp.
    Every other input is answered with an error. *)
Module canned.
Import golang.

Definition certURL : string := "https://s3.amazonaws.com/echo.api/echo-api-cert.pem".
Definition certURL443 : string := "https://s3.amazonaws.com:443/echo.api/echo-api-cert.pem".
Definition plainURL : string := "http://s3.amazonaws.com/echo.api/echo-api-cert.pem".
Definition ecURL : string := "https://s3.amazonaws.com/echo.api/ec-cert.pem".
Definition badURL : string := ":".

Definition str (s : string) : bytes := String.list_byte_of_string s.
Definition spells (b : bytes) (s : string) : bool := String.eqb (String.string_of_list_byte b) s.

Definition rsaKey : rsa_PublicKey := mkRSA 3233 17.

Definition subject : pkix_Name :=
  mkName [mkAttr [2; 5; 4; 6] (AnyString "US");
          mkAttr [2; 5; 4; 10] (AnyString "Amazon.com, Inc.");
          mkAttr [2; 5; 4; 3] (AnyString "echo-api.amazon.com")].

(** Valid from 2017-01-01 to 2018-01-01 (UTC). *)
Definition rsaCert : Certificate :=
  mkCert (mkTime 1483228800 0) (mkTime 1514764800 0) subject
    ["echo-api.amazon.com"] (RSAKey rsaKey).
Definition ecCert : Certificate :=
  mkCert (mkTime 1483228800 0) (mkTime 1514764800 0) subject
    ["echo-api.amazon.com"] (ECDSAKey "P-256" 5 7).

Definition sha1_of_braces : bytes :=
  [Byte.xbf; Byte.x21; Byte.xa9; Byte.xe8; Byte.xfb; Byte.xc5; Byte.xa3;
   Byte.x84; Byte.x6f; Byte.xb0; Byte.x5b; Byte.x4f; Byte.xa0; Byte.x85;
   Byte.x9e; Byte.x09; Byte.x17; Byte.xb2; Byte.x20; Byte.x2f].

Definition stdlib : Stdlib := {|
  url_Parse s :=
    if String.eqb s certURL then
      inl (mkURL "https" "s3.amazonaws.com" "/echo.api/echo-api-cert.pem")
    else if String.eqb s certURL443 then
      inl (mkURL "https" "s3.amazonaws.com:443" "/echo.api/echo-api-cert.pem")
    else if String.eqb s plainURL then
      inl (mkURL "http" "s3.amazonaws.com" "/echo.api/echo-api-cert.pem")
    else if String.eqb s ecURL then
      inl (mkURL "https" "s3.amazonaws.com" "/echo.api/ec-cert.pem")
    else if String.eqb s "" then inl (mkURL "" "" "")
    else inr "missing protocol scheme";
  pem_Decode b :=
    if spells b "rsa.pem" then Some (mkBlock (str "rsa.der"))
    else if spells b "ec.pem" then Some (mkBlock (str "ec.der"))
    else None;
  x509_ParseCertificate b :=
    if spells b "rsa.der" then inl rsaCert
    else if spells b "ec.der" then inl ecCert
    else inr "x509: malformed certificate";
  base64_DecodeString s :=
    if String.eqb s "c2ln" then (str "sig", None)
    else if String.eqb s "c2lh" then (str "sia", None)
    else ([], Some "illegal base64 data at input byte 0");
  sha1_Sum b := if spells b "{}" then sha1_of_braces else str "other digest";
  rsa_VerifyPKCS1v15 k digest sig :=
    if Z.eqb (N k) 3233 && Z.eqb (E k) 17
       && spells digest (String.string_of_list_byte sha1_of_braces) && spells sig "sig"
    then None else Some "crypto/rsa: verification error";
  time_Parse_RFC3339 s :=
    if String.eqb s "2017-06-01T12:00:00Z" then inl (mkTime 1496318400 0)
    else inr "cannot parse";
  Time_String t := "<time>";
  fmt_float q := "<float>"
|}.

Definition certReader : server.CertReader := fun _ url =>
  if String.eqb url certURL then (str "rsa.pem", None)
  else if String.eqb url certURL443 then (str "rsa.pem", None)
  else if String.eqb url ecURL then (str "ec.pem", None)
  else ([], Some (errorString "failed to get cert")).

Definition headers (url sig : string) : gmap string (list string) :=
  <["SignatureCertChainUrl" := [url]]> (<["Signature" := [sig]]> ∅).

(** The body arrives in two reads. *)
Definition body : Reader := mkReader [str "{"; str "}"] None.

Definition request (url sig : string) : http_Request :=
  mkRequest (headers url sig) (Some body) Background.

(** The signed request, one whose signature header was altered, and one
    whose certificate carries an ECDSA key. *)
Definition signed : http_Request := request certURL "c2ln".
Definition tampered : http_Request := request certURL "c2lh".
Definition elliptic : http_Request := request ecURL "c2ln".

Definition skill : string := "amzn1.ask.skill.1".
Definition stamp : string := "2017-06-01T12:00:00Z".

(** 2017-06-01T12:00:10Z, inside the validity of both certificates. *)
Definition now : Time := mkTime 1496318410 0.

Definition session (appID : string) : alexa.Session :=
  {| alexa.New := true; alexa.SessionID := "session-1";
     alexa.Attributes := None;
     alexa.Application := {| alexa.ApplicationID := appID |} |}.

Definition launch (ts : string) : alexa.Request :=
  {| alexa.Type_ := "LaunchRequest"; alexa.RequestID := "request-1";
     alexa.Timestamp := ts; alexa.IntentName := ""; alexa.Locale := "en-US";
     alexa.Token := ""; alexa.OffsetInMilliseconds := 0 |}.

Definition envelope (s : option alexa.Session) (ts : string) : alexa.RequestEnvelope :=
  {| alexa.Version := "1.0"; alexa.Session_ := s;
     alexa.Request_ := Some (launch ts); alexa.Context_ := None |}.

Definition welcome : alexa.Response :=
  {| alexa.OutputSpeech := Some ("PlainText", "Welcome to my app");
     alexa.Directives := None; alexa.ShouldSessionEnd := false |}.

(** The session handler of the basic example skill, as far as launch goes. *)
Definition sessionHandler : alexa.SessionHandler :=
  {| alexa.OnLaunch := fun _ _ _ _ => Val (Some welcome, None);
     alexa.OnIntent := fun _ r _ _ =>
       Val (None, Some (errorString ("unhandled intent: " +:+ alexa.IntentName r)));
     alexa.OnSessionEnded := fun _ _ _ _ => Val None |}.

Definition app (appID : string) : alexa.StrictVerificationApp :=
  {| alexa.App_ := {| alexa.App_ApplicationID := appID;
                      alexa.App_SessionHandler := Some sessionHandler;
                      alexa.App_AudioHandler := None |} |}.

End canned.

(* ===================================================================== *)
(** * package server: the application handler                             *)
(* ===================================================================== *)

Module server_app.
Import golang.

(** [encoding/json] on the two envelope types; the error is its message. *)
Class Json : Type := {
  json_Unmarshal : bytes -> alexa.RequestEnvelope + string;
  json_Marshal_request : alexa.RequestEnvelope -> bytes + string;
  json_Marshal : option alexa.ResponseEnvelope -> bytes + string
}.

(** AppHandler responds to requests from the alexa skill service: the
    [Handle] method of the interface value. *)
Definition AppHandler : Type :=
  context_Context -> alexa.RequestEnvelope
  -> result (option alexa.ResponseEnvelope * option error).

(** What a handler does to its [http.ResponseWriter]. *)
Inductive written : Type :=
| wrote_Error (body : string) (code : Z)       (* http.Error(w, body, code) *)
| set_Header (key value : string)              (* w.Header().Set(key, value) *)
| wrote (out : bytes).                         (* w.Write(out) *)

Definition StatusBadRequest : Z := 400.
Definition StatusInternalServerError : Z := 500.

Section Handler.
Context `{Json}.

(** NewAppHandler returns a http.Handler that services requests using the
    provided AppHandler *)
Definition NewAppHandler (app : AppHandler) (r : http_Request)
  : list written * result unit :=
  match Body r with
  | None => ([], Panicked NilDereference)     (* Read on the nil reader *)
  | Some rd =>
      let '(body, err) := ReadAll rd in
      match err with
      | Some _ => ([wrote_Error "Failed to read request" StatusBadRequest], Val tt)
      | None =>
          match json_Unmarshal body with
          | inr e =>
              ([wrote_Error ("Failed to parse request: " +:+ e) StatusBadRequest],
               Val tt)
          | inl alexaReq =>
              match app (req_Context r) alexaReq with
              | Panicked p => ([], Panicked p)
              | Val (resp, Some e) =>
                  if isValidationError e then
                    ([wrote_Error ("Failed to validate request: " +:+ Error e)
                        StatusBadRequest], Val tt)
                  else
                    ([wrote_Error ("Unexpected handling error: " +:+ Error e)
                        StatusInternalServerError], Val tt)
              | Val (resp, None) =>
                  match json_Marshal resp with
                  | inr e =>
                      ([wrote_Error ("Unable to marshal response: " +:+ e)
                          StatusInternalServerError], Val tt)
                  | inl out =>
                      ([set_Header "Content-Type" "application/json;charset=UTF-8";
                        wrote out], Val tt)
                  end
              end
          end
      end
  end.

(** The events of a validating handler with [alexaHandler] as the wrapped
    handler: a reply of the validating handler is a write to the same
    writer, the call runs the wrapped handler on the request passed, and a
    panic of either ends the request. *)
Fixpoint run (alexaHandler : http_Request -> list written * result unit)
    (t : list server.event) : list written * result unit :=
  match t with
  | [] => ([], Val tt)
  | server.http_Error body code :: t' =>
      let '(w, res) := run alexaHandler t' in (wrote_Error body code :: w, res)
  | server.ServeHTTP r' :: t' =>
      match alexaHandler r' with
      | (w, Val _) => let '(w', res) := run alexaHandler t' in (w ++ w', res)
      | (w, Panicked p) => (w, Panicked p)
      end
  end.

(** [NewValidatingHandler(alexaHandler, certReader)] serving [r]. *)
Definition ValidatingHandler `{Stdlib}
    (alexaHandler : http_Request -> list written * result unit)
    (certReader : server.CertReader) (now : Time) (r : http_Request)
  : list written * result unit :=
  let '(t, res) := server.NewValidatingHandler certReader now r in
  match run alexaHandler t with
  | (w, Val _) => (w, res)
  | (w, Panicked p) => (w, Panicked p)
  end.

End Handler.
End server_app.

(* ===================================================================== *)
(** * package lambda                                                      *)
(* ===================================================================== *)

Module lambda.
Import golang server_app.

(** [lambdacontext.FromContext]: the AwsRequestID of the Lambda context a
    [context.Context] carries, if it carries one. *)
Class Runtime : Type := {
  FromContext : context_Context -> option string
}.

(** Handler handles an alexa skill lambda request. *)
Definition Handler : Type :=
  context_Context -> alexa.RequestEnvelope
  -> result (option alexa.ResponseEnvelope * option error).

(** NewAppHandler returns a handler that services requests using the
    provided AppHandler *)
Definition NewAppHandler (app : AppHandler) : Handler := app.

Definition nl : string := String (Ascii.ascii_of_nat 10) "".

Section Debug.
Context `{Json} `{Runtime}.

(** NewDebugHandler wraps a handler and provides logging of the request and
    response.  The lines given to [log.Printf] come first.  The three
    [:=] with [err] on the left share one variable: what is returned is the
    error of the last assignment, that of marshalling the response. *)
Definition NewDebugHandler (h : Handler) (ctx : context_Context)
    (r : alexa.RequestEnvelope)
  : list string * result (option alexa.ResponseEnvelope * option error) :=
  let rID := match FromContext ctx with
             | Some id => id
             | None => "n/a"
             end in
  let request :=
    match json_Marshal_request r with
    | inr e => "[" +:+ rID +:+ "] Request: Failed to marshal: " +:+ e +:+ nl
    | inl eventJSON =>
        "[" +:+ rID +:+ "] Request: " +:+ String.string_of_list_byte eventJSON +:+ nl
    end in
  match h ctx r with
  | Panicked p => ([request], Panicked p)
  | Val (resp, err) =>
      let failure :=
        match err with
        | Some e => ["[" +:+ rID +:+ "] Error: " +:+ Error e +:+ nl]
        | None => []
        end in
      match json_Marshal resp with
      | inr e =>
          ([request] ++ failure
           ++ ["[" +:+ rID +:+ "] Response: Failed to marshal: " +:+ e +:+ nl],
           Val (resp, Some (errorString e)))
      | inl out =>
          ([request] ++ failure
           ++ ["[" +:+ rID +:+ "] Response: " +:+ String.string_of_list_byte out +:+ nl],
           Val (resp, None))
      end
  end.

End Debug.
End lambda.

(* ===================================================================== *)
(** * The basic example skill                                             *)
(* ===================================================================== *)

Module basic.
Import golang.

(** PlainSpeech returns OutputSpeech configured for basic text based output *)
Definition PlainSpeech (text : string) : string * string := ("PlainText", text).

Definition sessionHandler : alexa.SessionHandler :=
  {| alexa.OnLaunch := fun _ _ _ _ =>
       Val (Some {| alexa.OutputSpeech := Some (PlainSpeech "Welcome to my app");
                    alexa.Directives := None;
                    alexa.ShouldSessionEnd := false |}, None);
     alexa.OnIntent := fun _ r _ _ =>
       if String.eqb (alexa.IntentName r) "AMAZON.StopIntent" then
         Val (Some {| alexa.OutputSpeech := Some (PlainSpeech "Goodbye");
                      alexa.Directives := None;
                      alexa.ShouldSessionEnd := true |}, None)
       else
         Val (None, Some (errorString ("unhandled intent: " +:+ alexa.IntentName r)));
     alexa.OnSessionEnded := fun _ _ _ _ => Val None |}.

Definition newApp (appID : string) : alexa.App :=
  {| alexa.App_ApplicationID := appID;
     alexa.App_SessionHandler := Some sessionHandler;
     alexa.App_AudioHandler := None |}.

(** [lambda.NewDebugHandler(lambda.NewAppHandler(app))] of [main]. *)
Definition handler `{server_app.Json} `{lambda.Runtime} (appID : string)
  : context_Context -> alexa.RequestEnvelope
    -> list string * result (option alexa.ResponseEnvelope * option error) :=
  lambda.NewDebugHandler (lambda.NewAppHandler (alexa.App_Handle (newApp appID))).

End basic.

(* ===================================================================== *)
(** * More canned material: JSON and the Lambda context                   *)
(* ===================================================================== *)

Module canned_json.
Import golang.

(** The envelope [json.Unmarshal] builds from the body [{}]: every part is
    left at its zero value. *)
Definition zero : alexa.RequestEnvelope :=
  {| alexa.Version := ""; alexa.Session_ := None;
     alexa.Request_ := None; alexa.Context_ := None |}.

Definition reply : alexa.ResponseEnvelope :=
  {| alexa.RespVersion := "1.0"; alexa.SessionAttributes := None;
     alexa.Response_ := Some canned.welcome |}.

Definition json : server_app.Json := {|
  server_app.json_Unmarshal b :=
    if canned.spells b "{}" then inl zero
    else inr "unexpected end of JSON input";
  server_app.json_Marshal_request r := inl (canned.str "<request>");
  server_app.json_Marshal resp :=
    match resp with
    | None => inl (canned.str "null")
    | Some _ => inl (canned.str "<response>")
    end
|}.

(** Outside Lambda no context carries a request id. *)
Definition runtime : lambda.Runtime := {| lambda.FromContext := fun _ => None |}.

(** A handler that answers every request with the welcome. *)
Definition greeter : server_app.AppHandler := fun _ _ => Val (Some reply, None).

(** A body that breaks off after its first read. *)
Definition broken : Reader := mkReader [canned.str "{"] (Some "unexpected EOF").

Definition intent (name : string) : alexa.RequestEnvelope :=
  {| alexa.Version := "1.0"; alexa.Session_ := Some (canned.session canned.skill);
     alexa.Request_ :=
       Some {| alexa.Type_ := "IntentRequest"; alexa.RequestID := "request-2";
               alexa.Timestamp := canned.stamp; alexa.IntentName := name;
               alexa.Locale := "en-US"; alexa.Token := "";
               alexa.OffsetInMilliseconds := 0 |};
     alexa.Context_ := None |}.

Definition audio (ty : string) : alexa.RequestEnvelope :=
  {| alexa.Version := "1.0"; alexa.Session_ := None;
     alexa.Request_ :=
       Some {| alexa.Type_ := ty; alexa.RequestID := "request-3";
               alexa.Timestamp := canned.stamp; alexa.IntentName := "";
               alexa.Locale := "en-US"; alexa.Token := "token";
               alexa.OffsetInMilliseconds := 0 |};
     alexa.Context_ := None |}.

(** The signed request without any header, with a body that breaks off,
    and with its body arriving in a single read. *)
Definition bare : http_Request := mkRequest ∅ (Some canned.body) Background.
Definition interrupted : http_Request :=
  mkRequest (canned.headers canned.certURL "c2ln") (Some broken) Background.
Definition whole : http_Request :=
  mkRequest (canned.headers canned.certURL "c2ln")
    (Some (mkReader [canned.str "{}"] None)) Background.

(** A reader that has nothing to return. *)
Definition nobody : server.CertReader := fun _ _ => ([], None).

(** Handlers that refuse every request, one with a ValidationError and one
    with another error. *)
Definition refuser : server_app.AppHandler :=
  fun _ _ => Val (None, Some (ValidationError "not today")).
Definition failer : server_app.AppHandler :=
  fun _ _ => Val (None, Some (errorString "boom")).

(** An audio handler that never asks for anything. *)
Definition player : alexa.AudioHandler :=
  {| alexa.OnPlaybackStarted := fun _ _ _ => Val ([], None);
     alexa.OnPlaybackFinished := fun _ _ _ => Val ([], None);
     alexa.OnPlaybackStopped := fun _ _ _ => Val None;
     alexa.OnPlaybackNearlyFinished := fun _ _ _ => Val ([], None);
     alexa.OnPlaybackFailed := fun _ _ _ => Val ([], None) |}.

Definition jukebox : alexa.App :=
  {| alexa.App_ApplicationID := canned.skill;
     alexa.App_SessionHandler := None;
     alexa.App_AudioHandler := Some player |}.

End canned_json.

(* ===================================================================== *)
(** * The request types the routing App knows                             *)
(* ===================================================================== *)

Module kinds.

(** The cases of the switch in [App.Handle]. *)
Definition session_types : list string :=
  ["LaunchRequest"; "IntentRequest"; "SessionEndedRequest"].

(** The cases of the switch in [App.handleAudio]. *)
Definition audio_types : list string :=
  ["AudioPlayer.PlaybackStarted"; "AudioPlayer.PlaybackFinished";
   "AudioPlayer.PlaybackStopped"; "AudioPlayer.PlaybackNearlyFinished";
   "AudioPlayer.PlaybackFailed"].

(** The session attributes [App.Handle] copies into its response. *)
Definition attributes (r : alexa.RequestEnvelope) : option (gmap string golang.any) :=
  match alexa.Session_ r with
  | Some s => alexa.Attributes s
  | None => None
  end.

(** What [App.Handle] does with the pair its switch produced. *)
Definition finish (r : alexa.RequestEnvelope) (ty : string)
    (p : option alexa.Response * option golang.error)
  : golang.result (option alexa.ResponseEnvelope * option golang.error) :=
  match snd p with
  | Some e =>
      if golang.isValidationError e then golang.Val (None, Some e)
      else golang.Val (None, Some (golang.errorString
             ("failed to handle " +:+ ty +:+ " request: " +:+ golang.Error e)))
  | None =>
      golang.Val (Some {| alexa.RespVersion := alexa.sdkVersion; alexa.SessionAttributes := attributes r;
                   alexa.Response_ := fst p |}, None)
  end.

End kinds.

(* ===================================================================== *)
(** * The switch of the routing App                                      *)
(* ===================================================================== *)

Module routing.
Import golang alexa.

(** The switch of [App.Handle] on the request type, with the response and
    error it assigns. *)
Definition dispatch (a : App) (ctx : context_Context) (r : RequestEnvelope)
    (req : Request) : result (option Response * option error) :=
  let ty := Type_ req in
  if String.eqb ty "LaunchRequest" then
    h ← deref (App_SessionHandler a); OnLaunch h ctx req (Session_ r) (Context_ r)
  else if String.eqb ty "IntentRequest" then
    h ← deref (App_SessionHandler a); OnIntent h ctx req (Session_ r) (Context_ r)
  else if String.eqb ty "SessionEndedRequest" then
    h ← deref (App_SessionHandler a);
    err ← OnSessionEnded h ctx req (Session_ r) (Context_ r); Val (None, err)
  else if HasPrefix ty "AudioPlayer." then
    handleAudio a ctx r
  else
    Val (None, Some (ValidationError ("unhandled request type: " +:+ ty))).

End routing.

(* ===================================================================== *)
(** * The specification's wording, where it is compared with the code     *)
(* ===================================================================== *)

Module spec.
Import golang.

(** The rules of the trust-origin validator in the order they are given,
    each with the failure it reports. *)
Definition rules : list ((URL -> bool) * string) :=
  [ (fun u => String.eqb (Scheme u) "https", "cert url not https");
    (fun u => String.eqb (Host u) "s3.amazonaws.com"
              || String.eqb (Host u) "s3.amazonaws.com:443", "cert not on s3");
    (fun u => HasPrefix (Path u) "/echo.api/", "not an echo cert") ].

(** First failure wins. *)
Fixpoint first_failure (rs : list ((URL -> bool) * string)) (u : URL) : option error :=
  match rs with
  | [] => None
  | (ok, msg) :: rs' => if ok u then first_failure rs' u else Some (errorString msg)
  end.

(** The canonical service hostname occurs among the subject entries. *)
Definition names_service (c : Certificate) : Prop :=
  exists n, n ∈ Names (Subject c) /\ Value n = AnyString "echo-api.amazon.com".

(** The stages before the checks on the certificate itself went through
    and produced [cert]: the URL is trusted, the reader returned contents,
    they decode to a PEM block and that parses. *)
Definition resolves `{Stdlib} (r : http_Request) (certReader : server.CertReader)
    (cert : Certificate) : Prop :=
  let certURL := Header_Get (Header r) "SignatureCertChainUrl" in
  server.verifyCertURL certURL = Val None /\
  exists contents block,
    certReader (req_Context r) certURL = (contents, None) /\
    pem_Decode contents = Some block /\
    x509_ParseCertificate (Bytes block) = inl cert.

(** [now - ts] in nanoseconds. *)
Definition elapsed (now ts : Time) : Z :=
  (sec now - sec ts) * 1000000000 + (nsec now - nsec ts).

End spec.

(* ===================================================================== *)
(** * Instants to the nanosecond                                          *)
(* ===================================================================== *)

Module instants.
Import golang.

(** [!t.After(u)]: [t] is not later than [u], to the nanosecond. *)
Definition not_after (t u : Time) : Prop :=
  sec t < sec u \/ (sec t = sec u /\ nsec t <= nsec u).

(** The current time falls within [not-before, not-after], both bounds
    included. *)
Definition within (now : Time) (c : Certificate) : Prop :=
  not_after (NotBefore c) now /\ not_after now (NotAfter c).

(** The temporal check as the specification words it: a certificate that
    was fetched and parsed is let through exactly when the current time
    falls within its window. *)
Definition lets_through_iff_within `{Stdlib} (r : http_Request)
    (certReader : server.CertReader) (now : Time) (cert : Certificate) : Prop :=
  spec.resolves r certReader cert ->
  (server.readValidateCertificate r certReader now
     <> Val (None, Some (errors_New "certificate expired"))
   <-> within now cert).

(** 999999999 ns after the NotAfter of the canned certificates. *)
Definition late : Time := mkTime 1514764800 999999999.

End instants.

(* ===================================================================== *)
(** * Properties of package server                                        *)
(* ===================================================================== *)

Module server_proofs.
Import golang server.

Lemma eqb_string (a b : string) : String.eqb a b = true <-> a = b.
Proof. apply String.eqb_eq. Qed.

Lemma append_String (c : Ascii.ascii) (p rest : string) :
  String c p +:+ rest = String c (p +:+ rest).
Proof. reflexivity. Qed.

Lemma HasPrefix_app (s p : string) :
  HasPrefix s p = true <-> exists rest, s = p +:+ rest.
Proof.
  unfold HasPrefix. revert s.
  induction p as [|c p IH]; intros s.
  - split; [intros _; by exists s | intros _; by destruct s].
  - destruct s as [|d s]; simpl.
    + split; [done | intros [rest Hr]; discriminate].
    + destruct (Ascii.ascii_dec c d) as [->|Hne].
      * rewrite IH.
        split; intros [rest Hr]; exists rest; rewrite append_String in *; congruence.
      * split; [done | intros [rest Hr]; rewrite append_String in Hr; congruence].
Qed.

Section Server.
Context `{Stdlib}.

Lemma verifyCertURL_unparsable (path msg : string) :
  url_Parse path = inr msg -> verifyCertURL path = Panicked NilDereference.
Proof. unfold verifyCertURL. by intros ->. Qed.

Lemma verifyCertURL_rules (path : string) (link : URL) :
  url_Parse path = inl link ->
  verifyCertURL path = Val (spec.first_failure spec.rules link).
Proof.
  unfold verifyCertURL. intros ->. simpl.
  destruct (String.eqb (Scheme link) "https"); simpl; [|done].
  destruct (String.eqb (Host link) "s3.amazonaws.com"); simpl;
    [|destruct (String.eqb (Host link) "s3.amazonaws.com:443"); simpl; [|done]];
    by destruct (HasPrefix (Path link) "/echo.api/").
Qed.

Lemma first_failure_none (link : URL) :
  spec.first_failure spec.rules link = None <->
  Scheme link = "https" /\
  (Host link = "s3.amazonaws.com" \/ Host link = "s3.amazonaws.com:443") /\
  exists rest, Path link = "/echo.api/" +:+ rest.
Proof.
  rewrite <- HasPrefix_app, <- !eqb_string. simpl.
  destruct (String.eqb (Scheme link) "https"); simpl; [|intuition congruence].
  destruct (String.eqb (Host link) "s3.amazonaws.com"),
           (String.eqb (Host link) "s3.amazonaws.com:443"),
           (HasPrefix (Path link) "/echo.api/"); simpl; intuition congruence.
Qed.

(** The strings [url.Parse] accepts: [verifyCertURL] accepts exactly when
    the parsed URL has scheme https, host s3.amazonaws.com with or without
    the port :443, and a path that begins with /echo.api/; on a parsed URL
    the result is the failure of the first rule, in that order, that does
    not hold. *)
Theorem verifyCertURL_trust_origin (path : string) :
  (verifyCertURL path = Val None <->
     exists link, url_Parse path = inl link /\
       Scheme link = "https" /\
       (Host link = "s3.amazonaws.com" \/ Host link = "s3.amazonaws.com:443") /\
       exists rest, Path link = "/echo.api/" +:+ rest)
  /\ (forall link, url_Parse path = inl link ->
        verifyCertURL path = Val (spec.first_failure spec.rules link)).
Proof.
  split; [|apply verifyCertURL_rules].
  destruct (url_Parse path) as [link|msg] eqn:Hp.
  - rewrite (verifyCertURL_rules _ _ Hp). split.
    + intros [= Hnone]. exists link. split; [done|]. by apply first_failure_none.
    + intros (link' & [= <-] & Hrules). f_equal. by apply first_failure_none.
  - rewrite (verifyCertURL_unparsable _ _ Hp). split; [done|].
    by intros (link & ? & _).
Qed.

(** ** The certificate: validity window and subject *)

Lemma any_eq_string_true (v : any) (s : string) :
  any_eq_string v s = true <-> v = AnyString s.
Proof.
  destruct v; simpl; try (split; [done | discriminate]).
  rewrite String.eqb_eq. split; congruence.
Qed.

Lemma foundName_fold (names : list AttributeTypeAndValue) (acc : bool) :
  fold_left
    (fun found altName =>
       if any_eq_string (Value altName) "echo-api.amazon.com" then true else found)
    names acc
  = acc || existsb (fun n => any_eq_string (Value n) "echo-api.amazon.com") names.
Proof.
  revert acc. induction names as [|n names IH]; intros acc; simpl.
  - by rewrite orb_false_r.
  - rewrite IH.
    destruct (any_eq_string (Value n) "echo-api.amazon.com"), acc; simpl; done.
Qed.

Lemma foundName_true (c : Certificate) :
  foundName (Names (Subject c)) = true <-> spec.names_service c.
Proof.
  unfold foundName, spec.names_service. rewrite foundName_fold. simpl.
  rewrite existsb_exists. split.
  - intros (n & Hin & Hv). exists n. split.
    + by apply list_elem_of_In.
    + by apply any_eq_string_true.
  - intros (n & Hin & Hv). exists n. split.
    + by apply list_elem_of_In.
    + by apply any_eq_string_true.
Qed.

Lemma readValidateCertificate_resolved r certReader now cert :
  spec.resolves r certReader cert ->
  readValidateCertificate r certReader now =
    if (Unix now <? Unix (NotBefore cert)) || (Unix now >? Unix (NotAfter cert))
    then Val (None, Some (errors_New "certificate expired"))
    else if negb (foundName (Names (Subject cert)))
    then Val (None, Some (errors_New "certification invalid"))
    else Val (Some cert, None).
Proof.
  intros (Hurl & contents & block & Hread & Hpem & Hparse).
  unfold readValidateCertificate.
  rewrite Hurl. simpl. by rewrite Hread, Hpem, Hparse.
Qed.

Lemma expired_iff (now : Time) (cert : Certificate) :
  (Unix now <? Unix (NotBefore cert)) || (Unix now >? Unix (NotAfter cert)) = false
  <-> Unix (NotBefore cert) <= Unix now <= Unix (NotAfter cert).
Proof.
  rewrite orb_false_iff, Z.ltb_ge, Z.gtb_ltb, Z.ltb_ge. lia.
Qed.

(** C4. Once the certificate is fetched and parsed, the temporal check lets
    it through exactly when the Unix time of [now] lies between those of
    NotBefore and NotAfter, both bounds included; before the window as well
    as after it the error is "certificate expired". *)
Theorem readValidateCertificate_temporal r certReader now cert :
  spec.resolves r certReader cert ->
  (readValidateCertificate r certReader now
     = Val (None, Some (errors_New "certificate expired"))
   <-> ~ (Unix (NotBefore cert) <= Unix now <= Unix (NotAfter cert)))
  /\ (Unix now < Unix (NotBefore cert) ->
        readValidateCertificate r certReader now
          = Val (None, Some (errors_New "certificate expired")))
  /\ (Unix (NotAfter cert) < Unix now ->
        readValidateCertificate r certReader now
          = Val (None, Some (errors_New "certificate expired")))
  /\ (Unix (NotBefore cert) <= Unix now <= Unix (NotAfter cert) ->
        readValidateCertificate r certReader now
          = if foundName (Names (Subject cert)) then Val (Some cert, None)
            else Val (None, Some (errors_New "certification invalid"))).
Proof.
  intros Hres. rewrite (readValidateCertificate_resolved _ _ now _ Hres).
  pose proof (expired_iff now cert) as Hwin.
  destruct ((Unix now <? Unix (NotBefore cert)) || (Unix now >? Unix (NotAfter cert)))
    eqn:Hexp.
  - assert (~ (Unix (NotBefore cert) <= Unix now <= Unix (NotAfter cert))) as Hout
      by (intros Hin; apply Hwin in Hin; discriminate).
    repeat split; try done.
  - assert (Unix (NotBefore cert) <= Unix now <= Unix (NotAfter cert)) as Hin
      by by apply Hwin.
    repeat split; try (intros; lia).
    + destruct (foundName (Names (Subject cert))); discriminate.
    + intros _. by destruct (foundName (Names (Subject cert))).
Qed.

(** C8. For a certificate inside its validity window, the identity check
    accepts exactly when some entry of the subject's names, at any position,
    has the value echo-api.amazon.com; otherwise the error is
    "certification invalid". *)
Theorem readValidateCertificate_identity r certReader now cert :
  spec.resolves r certReader cert ->
  Unix (NotBefore cert) <= Unix now <= Unix (NotAfter cert) ->
  (readValidateCertificate r certReader now = Val (Some cert, None)
   <-> spec.names_service cert)
  /\ (~ spec.names_service cert ->
        readValidateCertificate r certReader now
          = Val (None, Some (errors_New "certification invalid"))).
Proof.
  intros Hres Hin. rewrite (readValidateCertificate_resolved _ _ now _ Hres).
  apply expired_iff in Hin. rewrite Hin.
  pose proof (foundName_true cert) as Hfound.
  destruct (foundName (Names (Subject cert))); simpl.
  - split; [split; [intros _; by apply Hfound | done]|].
    intros Hno. destruct Hno. by apply Hfound.
  - split; [|done]. split; [discriminate|].
    intros Hyes. apply Hfound in Hyes. discriminate.
Qed.

(** ** The signature and the body *)

Lemma copy_tee_concat (cs : list bytes) (dst buf : bytes) :
  copy_tee cs dst buf = (dst ++ concat cs, buf ++ concat cs).
Proof.
  revert dst buf. induction cs as [|c cs IH]; intros dst buf; simpl.
  - by rewrite !app_nil_r.
  - by rewrite IH, <- !app_assoc.
Qed.

(** With an RSA key and a body that reads to the end, the outcome is that of
    the library's verification of the digest of exactly the bytes read
    against the decoded signature, and an accepted body is exactly those
    bytes, each once and in order. *)
Lemma readValidateBody_rsa r c k body :
  PublicKey c = RSAKey k -> Body r = Some body -> final body = None ->
  readValidateBody r (Some c) =
    match rsa_VerifyPKCS1v15 k (sha1_Sum (concat (chunks body)))
            (fst (base64_DecodeString (Header_Get (Header r) "Signature"))) with
    | Some _ => Val (None, Some (errors_New "signature match failed"))
    | None => Val (Some (concat (chunks body)), None)
    end.
Proof.
  intros Hk Hb Hf. unfold readValidateBody, io_Copy_Tee.
  rewrite Hb, Hk, Hf, copy_tee_concat. simpl. done.
Qed.

Lemma readValidateBody_accepts r c k body :
  PublicKey c = RSAKey k -> Body r = Some body -> final body = None ->
  rsa_VerifyPKCS1v15 k (sha1_Sum (concat (chunks body)))
    (fst (base64_DecodeString (Header_Get (Header r) "Signature"))) = None ->
  readValidateBody r (Some c) = Val (Some (concat (chunks body)), None).
Proof.
  intros Hk Hb Hf Hv. by rewrite (readValidateBody_rsa _ _ _ _ Hk Hb Hf), Hv.
Qed.

(** Tampering, as far as the code decides it.  Suppose the key admits one
    digest per signature and one signature per digest, as RSA with PKCS #1
    v1.5 padding does for a well-formed key.  Then a request accepted with
    its body and signature is rejected once the body is replaced by one
    with another digest, or the signature by other bytes. *)
Lemma readValidateBody_tamper r r' c k body body' :
  PublicKey c = RSAKey k ->
  Body r = Some body -> final body = None ->
  Body r' = Some body' -> final body' = None ->
  (forall d d' s, rsa_VerifyPKCS1v15 k d s = None ->
                  rsa_VerifyPKCS1v15 k d' s = None -> d = d') ->
  (forall d s s', rsa_VerifyPKCS1v15 k d s = None ->
                  rsa_VerifyPKCS1v15 k d s' = None -> s = s') ->
  readValidateBody r (Some c) = Val (Some (concat (chunks body)), None) ->
  (sha1_Sum (concat (chunks body')) <> sha1_Sum (concat (chunks body))
   /\ fst (base64_DecodeString (Header_Get (Header r') "Signature"))
      = fst (base64_DecodeString (Header_Get (Header r) "Signature")))
  \/ (concat (chunks body') = concat (chunks body)
      /\ fst (base64_DecodeString (Header_Get (Header r') "Signature"))
         <> fst (base64_DecodeString (Header_Get (Header r) "Signature"))) ->
  readValidateBody r' (Some c) = Val (None, Some (errors_New "signature match failed")).
Proof.
  intros Hk Hb Hf Hb' Hf' Hdigest Hsig.
  rewrite (readValidateBody_rsa _ _ _ _ Hk Hb Hf),
          (readValidateBody_rsa _ _ _ _ Hk Hb' Hf').
  destruct (rsa_VerifyPKCS1v15 k (sha1_Sum (concat (chunks body))) _) eqn:Hv;
    [discriminate|]. intros _ Hcase.
  destruct (rsa_VerifyPKCS1v15 k (sha1_Sum (concat (chunks body'))) _) eqn:Hv';
    [done|].
  destruct Hcase as [[Hd Hs] | [Hd Hs]].
  - rewrite Hs in Hv'. destruct Hd. by eapply Hdigest.
  - rewrite Hd in Hv'. destruct Hs. by eapply Hsig.
Qed.

(** Reading the returned buffer to the end gives its bytes and no error. *)
Lemma ReadAll_NewReader (b : bytes) : ReadAll (NewReader b) = (b, None).
Proof. unfold ReadAll, NewReader. simpl. by rewrite app_nil_r. Qed.

Lemma readValidateBody_read_error r c body e :
  Body r = Some body -> final body = Some e ->
  readValidateBody r (Some c) = Val (None, Some (errorString e)).
Proof.
  intros Hb Hf. unfold readValidateBody, io_Copy_Tee.
  rewrite Hb, Hf, copy_tee_concat. simpl. done.
Qed.

(** C2. With a certificate whose public key is not an RSA key and a body
    that reads to the end, [readValidateBody] does not return a failure: the
    unchecked type assertion panics. *)
Theorem readValidateBody_key_type r c body :
  Body r = Some body -> final body = None ->
  (forall k, PublicKey c <> RSAKey k) ->
  readValidateBody r (Some c) = Panicked InterfaceConversion.
Proof.
  intros Hb Hf Hk. unfold readValidateBody, io_Copy_Tee.
  rewrite Hb, Hf, copy_tee_concat. simpl.
  destruct (PublicKey c) as [k| | |]; try done. by destruct (Hk k).
Qed.

(** ** The handler *)

Lemma NewValidatingHandler_accepts certReader now r cert body :
  readValidateCertificate r certReader now = Val (Some cert, None) ->
  readValidateBody r (Some cert) = Val (Some body, None) ->
  NewValidatingHandler certReader now r
    = ([ServeHTTP (mkRequest (Header r) (Some (NewReader body)) (req_Context r))],
       Val tt).
Proof.
  intros Hc Hb. unfold NewValidatingHandler, lift.
  rewrite Hc. cbn -[readValidateBody]. rewrite Hb. done.
Qed.

Lemma NewValidatingHandler_certificate_failure certReader now r e :
  readValidateCertificate r certReader now = Val (None, Some e) ->
  NewValidatingHandler certReader now r
    = ([http_Error ("Certificate validation failed: " +:+ Error e) StatusUnauthorized],
       Panicked NilDereference).
Proof.
  intros Hc. unfold NewValidatingHandler, lift.
  rewrite Hc. simpl. done.
Qed.

(** C1. When the certificate is valid and the signature check fails, the
    handler writes the 401 reply and then still calls the wrapped handler,
    with a request whose body is a nil reader. *)
Theorem NewValidatingHandler_signature_failure certReader now r cert e :
  readValidateCertificate r certReader now = Val (Some cert, None) ->
  readValidateBody r (Some cert) = Val (None, Some e) ->
  NewValidatingHandler certReader now r
    = ([http_Error ("Signature validation failed: " +:+ Error e) StatusUnauthorized;
        ServeHTTP (mkRequest (Header r) None (req_Context r))],
       Val tt).
Proof.
  intros Hc Hb. unfold NewValidatingHandler, lift.
  rewrite Hc. cbn -[readValidateBody]. rewrite Hb. done.
Qed.

(** C3. A certificate URL that [url.Parse] refuses: the parse error is
    dropped and the link is nil, so [verifyCertURL] panics on [link.Scheme].
    No rule is checked and no error is returned; for a request that carries
    such a URL the certificate stage and the handler panic with it, before
    any reply is written and without the reader being asked. *)
Theorem verifyCertURL_parse_error (path msg : string) :
  url_Parse path = inr msg ->
  verifyCertURL path = Panicked NilDereference
  /\ (forall err, verifyCertURL path <> Val err)
  /\ (forall (r : http_Request) (certReader : CertReader) (now : Time),
        Header_Get (Header r) "SignatureCertChainUrl" = path ->
        readValidateCertificate r certReader now = Panicked NilDereference
        /\ NewValidatingHandler certReader now r = ([], Panicked NilDereference)).
Proof.
  intros Hparse.
  assert (verifyCertURL path = Panicked NilDereference) as Hpanic
    by (unfold verifyCertURL; by rewrite Hparse).
  split; [exact Hpanic|]. split.
  - intros err. rewrite Hpanic. discriminate.
  - intros r certReader now Hhdr.
    assert (readValidateCertificate r certReader now = Panicked NilDereference)
      as Hc by (unfold readValidateCertificate; rewrite Hhdr, Hpanic; reflexivity).
    split; [exact Hc|].
    unfold NewValidatingHandler, lift. rewrite Hc. reflexivity.
Qed.

End Server.
End server_proofs.

(* ===================================================================== *)
(** * Properties of package alexa                                         *)
(* ===================================================================== *)

Module alexa_proofs.
Import golang alexa.

(** ** Durations in seconds *)

Lemma Seconds_eq (d : Duration) : (Seconds d == d # 1000000000)%Q.
Proof.
  unfold Seconds, Second, Qeq, Qplus, inject_Z. cbn [Qnum Qden].
  pose proof (Z.quot_rem' d 1000000000) as Hd.
  rewrite Pos2Z.inj_mul.
  generalize dependent (Z.quot d 1000000000).
  generalize (Z.rem d 1000000000). unfold Duration in *. intros; lia.
Qed.

Lemma Sub_within (now ts : Time) (bound : Z) :
  0 <= bound <= 9000000000000000000 ->
  (Z.abs (Sub now ts) <= bound <-> Z.abs (spec.elapsed now ts) <= bound).
Proof.
  intros Hb. unfold Sub, spec.elapsed, Second, minDuration, maxDuration.
  change (2 ^ 63) with 9223372036854775808.
  repeat match goal with
         | |- context [?a <? ?b] => destruct (Z.ltb_spec a b)
         end; lia.
Qed.

(** The comparison [math.Abs(diff) > 150] of the code, in nanoseconds. *)
Lemma fresh_iff (now ts : Time) :
  negb (Qle_bool (math_Abs (Seconds (Sub now ts))) (inject_Z 150)) = false
  <-> Z.abs (spec.elapsed now ts) <= 150 * 1000000000.
Proof.
  rewrite negb_false_iff, Qle_bool_iff. unfold math_Abs.
  rewrite Seconds_eq.
  rewrite <- (Sub_within now ts (150 * 1000000000)) by lia.
  unfold Qabs, Qle, inject_Z. simpl. lia.
Qed.

Section Validation.
Context `{Stdlib}.

(** ** Application binding *)

Lemma mismatch_is_not_missing (reqAppID : string) :
  "request applicationID mismatch: " +:+ reqAppID <> "request applicationID missing".
Proof. cbv [String.append]. congruence. Qed.

Lemma validateApplicationID_session r s applicationID :
  Session_ r = Some s ->
  validateApplicationID r applicationID =
    if String.eqb (ApplicationID (Application s)) "" then
      Val (Some (ValidationError "request applicationID missing"))
    else if negb (String.eqb (ApplicationID (Application s)) applicationID) then
      Val (Some (ValidationError
             ("request applicationID mismatch: " +:+ ApplicationID (Application s))))
    else Val None.
Proof. unfold validateApplicationID. by intros ->. Qed.

(** C10. On an envelope whose Session pointer is nil the application-binding
    check dereferences it and panics, and so does
    [StrictVerificationApp.Handle]: no rejection is returned. *)
Theorem Handle_nil_session (s : StrictVerificationApp) (ctx : context_Context)
    (r : RequestEnvelope) (now : Time) :
  Session_ r = None ->
  validateApplicationID r (App_ApplicationID (App_ s)) = Panicked NilDereference
  /\ Handle s ctx r now = Panicked NilDereference.
Proof.
  intros Hnil. unfold Handle, validateApplicationID. by rewrite Hnil.
Qed.

(** C7. The application-binding check accepts exactly when the envelope
    declares an application identity that is not empty and equals the
    expected one; an empty identity and a different one are rejected with
    two different messages. *)
Theorem validateApplicationID_binding (r : RequestEnvelope) (applicationID : string) :
  (validateApplicationID r applicationID = Val None <->
     exists s, Session_ r = Some s /\
       ApplicationID (Application s) <> "" /\
       ApplicationID (Application s) = applicationID)
  /\ (forall s, Session_ r = Some s ->
        (ApplicationID (Application s) = "" ->
           validateApplicationID r applicationID
             = Val (Some (ValidationError "request applicationID missing")))
        /\ (ApplicationID (Application s) <> "" ->
            ApplicationID (Application s) <> applicationID ->
              validateApplicationID r applicationID
                = Val (Some (ValidationError
                        ("request applicationID mismatch: "
                         +:+ ApplicationID (Application s))))
              /\ "request applicationID mismatch: " +:+ ApplicationID (Application s)
                 <> "request applicationID missing")).
Proof.
  split.
  - destruct (Session_ r) as [s|] eqn:Hs.
    + rewrite (validateApplicationID_session _ _ _ Hs).
      destruct (String.eqb_spec (ApplicationID (Application s)) "") as [He|He].
      { split; [done|]. intros (s' & [= <-] & Hne & _). done. }
      destruct (String.eqb_spec (ApplicationID (Application s)) applicationID)
        as [Ha|Ha]; simpl.
      * split; [|done]. intros _. by exists s.
      * split; [done|]. intros (s' & [= <-] & _ & Heq). done.
    + split.
      * unfold validateApplicationID. by rewrite Hs.
      * by intros (s & ? & _).
  - intros s Hs. rewrite (validateApplicationID_session _ _ _ Hs). split.
    + by intros ->.
    + intros He Ha. split; [|apply mismatch_is_not_missing].
      destruct (String.eqb_spec (ApplicationID (Application s)) ""); [done|].
      by destruct (String.eqb_spec (ApplicationID (Application s)) applicationID).
Qed.

(** ** Timestamp freshness *)

Lemma validateTimestamp_request r req now maxDiffSeconds :
  Request_ r = Some req ->
  validateTimestamp r now maxDiffSeconds =
    match time_Parse_RFC3339 (Timestamp req) with
    | inr err =>
        Val (Some (ValidationError
               ("invalid timestamp " +:+ Timestamp req +:+ ": " +:+ err)))
    | inl timestamp =>
        let diff := Seconds (Sub now timestamp) in
        if negb (Qle_bool (math_Abs diff) maxDiffSeconds) then
          Val (Some (ValidationError
                 ("timestamp " +:+ Time_String timestamp +:+ " difference of "
                  +:+ fmt_float diff +:+ "s exceeds "
                  +:+ fmt_float maxDiffSeconds +:+ "s")))
        else Val None
    end.
Proof. unfold validateTimestamp. by intros ->. Qed.

Lemma validateTimestamp_parsed r req ts now :
  Request_ r = Some req -> time_Parse_RFC3339 (Timestamp req) = inl ts ->
  (validateTimestamp r now (inject_Z 150) = Val None
     <-> Z.abs (spec.elapsed now ts) <= 150 * 1000000000)
  /\ (150 * 1000000000 < Z.abs (spec.elapsed now ts) ->
        exists m, validateTimestamp r now (inject_Z 150)
                    = Val (Some (ValidationError m))).
Proof.
  intros Hreq Hts. rewrite (validateTimestamp_request _ _ now _ Hreq), Hts.
  cbv zeta. pose proof (fresh_iff now ts) as Hfresh.
  destruct (negb (Qle_bool (math_Abs (Seconds (Sub now ts))) (inject_Z 150))).
  - assert (~ Z.abs (spec.elapsed now ts) <= 150 * 1000000000) as Hstale
      by (intros Hle; apply Hfresh in Hle; discriminate).
    split; [split; [discriminate | done]|]. intros _. eauto.
  - assert (Z.abs (spec.elapsed now ts) <= 150 * 1000000000) as Hok
      by by apply Hfresh.
    split; [done | lia].
Qed.

(** C6. The freshness check accepts exactly when the envelope's timestamp
    parses and lies at most 150 seconds from [now], before or after.  A
    timestamp that does not parse is reported as a ValidationError; one that
    parses and lies further away is rejected with a ValidationError; at 150
    seconds it is accepted and at 151 rejected, in the past as in the
    future. *)
Theorem validateTimestamp_freshness (r : RequestEnvelope) (now : Time) :
  (validateTimestamp r now (inject_Z 150) = Val None <->
     exists req ts, Request_ r = Some req /\
       time_Parse_RFC3339 (Timestamp req) = inl ts /\
       Z.abs (spec.elapsed now ts) <= 150 * 1000000000)
  /\ (forall req, Request_ r = Some req ->
       (forall msg, time_Parse_RFC3339 (Timestamp req) = inr msg ->
          validateTimestamp r now (inject_Z 150)
            = Val (Some (ValidationError
                    ("invalid timestamp " +:+ Timestamp req +:+ ": " +:+ msg))))
       /\ (forall ts, time_Parse_RFC3339 (Timestamp req) = inl ts ->
            (150 * 1000000000 < Z.abs (spec.elapsed now ts) ->
               exists m, validateTimestamp r now (inject_Z 150)
                           = Val (Some (ValidationError m)))
            /\ (forall d, nsec ts = nsec now -> sec now - sec ts = d ->
                  (d = 150 \/ d = -150 ->
                     validateTimestamp r now (inject_Z 150) = Val None)
                  /\ (d = 151 \/ d = -151 ->
                     exists m, validateTimestamp r now (inject_Z 150)
                                 = Val (Some (ValidationError m)))))).
Proof.
  split.
  - destruct (Request_ r) as [req|] eqn:Hreq.
    + destruct (time_Parse_RFC3339 (Timestamp req)) as [ts|msg] eqn:Hts.
      * rewrite (proj1 (validateTimestamp_parsed _ _ _ now Hreq Hts)). split.
        -- intros Hle. by exists req, ts.
        -- intros (req' & ts' & [= <-] & Hts' & Hle). congruence.
      * rewrite (validateTimestamp_request _ _ now _ Hreq), Hts. split; [done|].
        intros (req' & ts' & [= <-] & Hts' & _). congruence.
    + split.
      * unfold validateTimestamp. by rewrite Hreq.
      * by intros (req & ts & ? & _).
  - intros req Hreq. split.
    + intros msg Hmsg. by rewrite (validateTimestamp_request _ _ now _ Hreq), Hmsg.
    + intros ts Hts.
      destruct (validateTimestamp_parsed _ _ _ now Hreq Hts) as [Hacc Hrej].
      split; [done|]. intros d Hns Hd. split.
      * intros Hcase. apply Hacc. unfold spec.elapsed. lia.
      * intros Hcase. apply Hrej. unfold spec.elapsed. lia.
Qed.

(** ** The decorator *)

Lemma validateApplicationID_error r applicationID e :
  validateApplicationID r applicationID = Val (Some e) -> isValidationError e = true.
Proof.
  unfold validateApplicationID. destruct (Session_ r) as [s|]; simpl; [|done].
  destruct (String.eqb _ ""); [by intros [= <-]|].
  destruct (negb _); [by intros [= <-] | done].
Qed.

Lemma validateTimestamp_error r now maxDiffSeconds e :
  validateTimestamp r now maxDiffSeconds = Val (Some e) -> isValidationError e = true.
Proof.
  unfold validateTimestamp. destruct (Request_ r) as [req|]; simpl; [|done].
  destruct (time_Parse_RFC3339 _); [|by intros [= <-]].
  destruct (negb _); [by intros [= <-] | done].
Qed.

(** C9. When both checks pass, [StrictVerificationApp.Handle] is the wrapped
    App's Handle on the same context and envelope.  When the application
    check fails, or it passes and the timestamp check fails, Handle returns
    that error, a ValidationError, with no response, whatever the handlers
    of the wrapped App are: the wrapped Handle is not run. *)
Theorem Handle_decorator (s : StrictVerificationApp) (ctx : context_Context)
    (r : RequestEnvelope) (now : Time) :
  (validateApplicationID r (App_ApplicationID (App_ s)) = Val None ->
   validateTimestamp r now (inject_Z 150) = Val None ->
   Handle s ctx r now = App_Handle (App_ s) ctx r)
  /\ (forall e,
        validateApplicationID r (App_ApplicationID (App_ s)) = Val (Some e)
        \/ (validateApplicationID r (App_ApplicationID (App_ s)) = Val None
            /\ validateTimestamp r now (inject_Z 150) = Val (Some e)) ->
        isValidationError e = true
        /\ forall sh ah,
             Handle {| App_ := {| App_ApplicationID := App_ApplicationID (App_ s);
                                  App_SessionHandler := sh;
                                  App_AudioHandler := ah |} |} ctx r now
             = Val (None, Some e)).
Proof.
  split.
  - intros Ha Ht. unfold Handle. rewrite Ha. simpl. rewrite Ht. done.
  - intros e [Ha | [Ha Ht]].
    + split; [by eapply validateApplicationID_error|].
      intros sh ah. unfold Handle. simpl. rewrite Ha. done.
    + split; [by eapply validateTimestamp_error|].
      intros sh ah. unfold Handle. simpl. rewrite Ha. simpl. rewrite Ht. done.
Qed.

End Validation.
End alexa_proofs.

(* ===================================================================== *)
(** * The theorems at the canned requests                                 *)
(* ===================================================================== *)

Module examples.
Import golang canned.

Lemma signed_resolves :
  @spec.resolves canned.stdlib signed canned.certReader canned.rsaCert.
Proof.
  split; [vm_compute; reflexivity|].
  exists (canned.str "rsa.pem"), (mkBlock (canned.str "rsa.der")).
  repeat split; vm_compute; reflexivity.
Defined.

(** The URL over plain http is parsed and fails the first rule. *)
Lemma verifyCertURL_trust_origin_witness :
  @url_Parse canned.stdlib canned.plainURL
    = inl (mkURL "http" "s3.amazonaws.com" "/echo.api/echo-api-cert.pem")
  /\ @server.verifyCertURL canned.stdlib canned.plainURL
     = Val (Some (errorString "cert url not https")).
Proof.
  split; [reflexivity|].
  exact (proj2 (@server_proofs.verifyCertURL_trust_origin canned.stdlib canned.plainURL)
           (mkURL "http" "s3.amazonaws.com" "/echo.api/echo-api-cert.pem") eq_refl).
Defined.

(** One second after NotAfter the certificate is expired. *)
Lemma readValidateCertificate_temporal_witness :
  @spec.resolves canned.stdlib signed canned.certReader canned.rsaCert
  /\ Unix (NotAfter canned.rsaCert) < Unix (mkTime 1514764801 0)
  /\ @server.readValidateCertificate canned.stdlib signed canned.certReader
       (mkTime 1514764801 0)
     = Val (None, Some (errors_New "certificate expired")).
Proof.
  split; [exact signed_resolves|]. split; [reflexivity|].
  apply (proj1 (proj2 (proj2
           (@server_proofs.readValidateCertificate_temporal canned.stdlib
              signed canned.certReader (mkTime 1514764801 0) canned.rsaCert
              signed_resolves)))).
  reflexivity.
Defined.

(** The canned certificate names the service in its last subject entry. *)
Lemma readValidateCertificate_identity_witness :
  @spec.resolves canned.stdlib signed canned.certReader canned.rsaCert
  /\ Unix (NotBefore canned.rsaCert) <= Unix canned.now <= Unix (NotAfter canned.rsaCert)
  /\ @server.readValidateCertificate canned.stdlib signed canned.certReader canned.now
     = Val (Some canned.rsaCert, None).
Proof.
  assert (Unix (NotBefore canned.rsaCert) <= Unix canned.now
          <= Unix (NotAfter canned.rsaCert)) as Hin
    by (split; intros Hgt; discriminate Hgt).
  split; [exact signed_resolves|]. split; [exact Hin|].
  apply (proj1 (@server_proofs.readValidateCertificate_identity canned.stdlib
                  signed canned.certReader canned.now canned.rsaCert
                  signed_resolves Hin)).
  exists (mkAttr [2; 5; 4; 3] (AnyString "echo-api.amazon.com")).
  split; [|reflexivity]. do 2 apply list_elem_of_further. apply list_elem_of_here.
Defined.

(** A certificate with an ECDSA key. *)
Lemma readValidateBody_key_type_witness :
  Body elliptic = Some canned.body
  /\ final canned.body = None
  /\ (forall k, PublicKey canned.ecCert <> RSAKey k)
  /\ @server.readValidateBody canned.stdlib elliptic (Some canned.ecCert)
     = Panicked InterfaceConversion.
Proof.
  assert (forall k, PublicKey canned.ecCert <> RSAKey k) as Hk
    by (intros k Heq; discriminate Heq).
  split; [reflexivity|]. split; [reflexivity|]. split; [exact Hk|].
  exact (@server_proofs.readValidateBody_key_type canned.stdlib elliptic
           canned.ecCert canned.body eq_refl eq_refl Hk).
Defined.

(** A valid certificate and a signature that does not verify. *)
Lemma NewValidatingHandler_signature_failure_witness :
  @server.readValidateCertificate canned.stdlib tampered canned.certReader canned.now
    = Val (Some canned.rsaCert, None)
  /\ @server.readValidateBody canned.stdlib tampered (Some canned.rsaCert)
     = Val (None, Some (errors_New "signature match failed"))
  /\ @server.NewValidatingHandler canned.stdlib canned.certReader canned.now tampered
     = ([server.http_Error "Signature validation failed: signature match failed" 401;
         server.ServeHTTP (mkRequest (Header tampered) None (req_Context tampered))],
        Val tt).
Proof.
  assert (@server.readValidateCertificate canned.stdlib tampered canned.certReader
            canned.now = Val (Some canned.rsaCert, None)) as Hc
    by (vm_compute; reflexivity).
  assert (@server.readValidateBody canned.stdlib tampered (Some canned.rsaCert)
          = Val (None, Some (errors_New "signature match failed"))) as Hb
    by (vm_compute; reflexivity).
  split; [exact Hc|]. split; [exact Hb|].
  exact (@server_proofs.NewValidatingHandler_signature_failure canned.stdlib
           canned.certReader canned.now tampered canned.rsaCert _ Hc Hb).
Defined.

(** No session at all. *)
Lemma Handle_nil_session_witness :
  alexa.Session_ (canned.envelope None stamp) = None
  /\ @alexa.Handle canned.stdlib (canned.app skill) Background
       (canned.envelope None stamp) canned.now
     = Panicked NilDereference.
Proof.
  split; [reflexivity|].
  exact (proj2 (@alexa_proofs.Handle_nil_session canned.stdlib (canned.app skill)
                  Background (canned.envelope None stamp) canned.now eq_refl)).
Defined.

(** An empty application identity. *)
Lemma validateApplicationID_binding_witness :
  alexa.Session_ (canned.envelope (Some (canned.session "")) stamp)
    = Some (canned.session "")
  /\ alexa.validateApplicationID (canned.envelope (Some (canned.session "")) stamp) skill
     = Val (Some (ValidationError "request applicationID missing")).
Proof.
  split; [reflexivity|].
  exact (proj1 (proj2 (alexa_proofs.validateApplicationID_binding
                         (canned.envelope (Some (canned.session "")) stamp) skill)
                  (canned.session "") eq_refl) eq_refl).
Defined.

(** The timestamp lies exactly 150 seconds before now. *)
Lemma validateTimestamp_freshness_witness :
  alexa.Request_ (canned.envelope None stamp) = Some (canned.launch stamp)
  /\ @time_Parse_RFC3339 canned.stdlib stamp = inl (mkTime 1496318400 0)
  /\ @alexa.validateTimestamp canned.stdlib (canned.envelope None stamp)
       (mkTime 1496318550 0) (inject_Z 150)
     = Val None.
Proof.
  split; [reflexivity|]. split; [reflexivity|].
  destruct (proj2 (@alexa_proofs.validateTimestamp_freshness canned.stdlib
                     (canned.envelope None stamp) (mkTime 1496318550 0))
              (canned.launch stamp) eq_refl) as [_ Hparsed].
  destruct (Hparsed (mkTime 1496318400 0) eq_refl) as [_ Hbound].
  apply (Hbound 150); [reflexivity | reflexivity | left; reflexivity].
Defined.

(** Matching identity and a timestamp ten seconds old. *)
Lemma Handle_decorator_witness :
  alexa.validateApplicationID
    (canned.envelope (Some (canned.session skill)) stamp) skill = Val None
  /\ @alexa.validateTimestamp canned.stdlib
       (canned.envelope (Some (canned.session skill)) stamp) canned.now (inject_Z 150)
     = Val None
  /\ @alexa.Handle canned.stdlib (canned.app skill) Background
       (canned.envelope (Some (canned.session skill)) stamp) canned.now
     = alexa.App_Handle (alexa.App_ (canned.app skill)) Background
         (canned.envelope (Some (canned.session skill)) stamp).
Proof.
  assert (alexa.validateApplicationID
            (canned.envelope (Some (canned.session skill)) stamp) skill = Val None)
    as Ha by (vm_compute; reflexivity).
  assert (@alexa.validateTimestamp canned.stdlib
            (canned.envelope (Some (canned.session skill)) stamp) canned.now
            (inject_Z 150) = Val None)
    as Ht by (vm_compute; reflexivity).
  split; [exact Ha|]. split; [exact Ht|].
  exact (proj1 (@alexa_proofs.Handle_decorator canned.stdlib (canned.app skill)
                  Background (canned.envelope (Some (canned.session skill)) stamp)
                  canned.now) Ha Ht).
Defined.

(** Both accepted shapes of the certificate URL. *)
Example canonical_url_accepted :
  @server.verifyCertURL canned.stdlib certURL = Val None
  /\ @server.verifyCertURL canned.stdlib certURL443 = Val None.
Proof. split; vm_compute; reflexivity. Qed.

(** A string [url.Parse] refuses: the nil link is dereferenced. *)
Example unparsable_url_panics :
  @server.verifyCertURL canned.stdlib badURL = Panicked NilDereference.
Proof. vm_compute; reflexivity. Qed.

(** End to end: the signed request reaches the wrapped handler with a body
    that reads back as the bytes received, and nothing else is written. *)
Example signed_request_served :
  exists r',
    @server.NewValidatingHandler canned.stdlib canned.certReader canned.now signed
      = ([server.ServeHTTP r'], Val tt)
    /\ Header r' = Header signed
    /\ option_map ReadAll (Body r') = Some (canned.str "{}", None).
Proof.
  eexists. split; [vm_compute; reflexivity|]. split; vm_compute; reflexivity.
Qed.

(** A certificate URL over plain http: the 401 reply is written and the
    handler then panics on the nil certificate. *)
Example plain_url_rejected_then_panics :
  @server.NewValidatingHandler canned.stdlib canned.certReader canned.now
    (canned.request plainURL "c2ln")
  = ([server.http_Error "Certificate validation failed: cert url not https" 401],
     Panicked NilDereference).
Proof. vm_compute; reflexivity. Qed.

End examples.

(* ===================================================================== *)
(** * More of package server: the stages and the handler as a whole       *)
(* ===================================================================== *)

Module server_more.
Import golang server.

Section Server.
Context `{Stdlib}.

(** X1. A certificate URL that [verifyCertURL] refuses is never fetched:
    [readValidateCertificate] returns that error whatever the reader and
    the time are. *)
Theorem readValidateCertificate_untrusted_url (r : http_Request) (e : error) :
  verifyCertURL (Header_Get (Header r) "SignatureCertChainUrl") = Val (Some e) ->
  forall (certReader : CertReader) (now : Time),
    readValidateCertificate r certReader now = Val (None, Some e).
Proof.
  intros Hurl certReader now. unfold readValidateCertificate.
  rewrite Hurl. reflexivity.
Qed.

Lemma accepts (r : http_Request) (certReader : CertReader) (now : Time)
    (cert : Certificate) :
  spec.resolves r certReader cert ->
  Unix (NotBefore cert) <= Unix now <= Unix (NotAfter cert) ->
  spec.names_service cert ->
  readValidateCertificate r certReader now = Val (Some cert, None).
Proof.
  intros Hres Hin Hnames.
  rewrite (server_proofs.readValidateCertificate_resolved _ _ now _ Hres).
  apply server_proofs.expired_iff in Hin. rewrite Hin.
  apply server_proofs.foundName_true in Hnames. by rewrite Hnames.
Qed.

(** X2. [readValidateCertificate] returns a certificate exactly when the
    URL is trusted, the fetched contents decode and parse to it, the time
    lies in its validity window and its subject names the service. *)
Theorem readValidateCertificate_accepts_iff (r : http_Request)
    (certReader : CertReader) (now : Time) (cert : Certificate) :
  readValidateCertificate r certReader now = Val (Some cert, None)
  <-> spec.resolves r certReader cert
      /\ Unix (NotBefore cert) <= Unix now <= Unix (NotAfter cert)
      /\ spec.names_service cert.
Proof.
  split.
  - unfold readValidateCertificate, spec.resolves.
    destruct (verifyCertURL _) as [[e|]|p] eqn:Hurl; simpl; try discriminate.
    destruct (certReader _ _) as [contents [e|]] eqn:Hread; try discriminate.
    destruct (pem_Decode contents) as [block|] eqn:Hpem; try discriminate.
    destruct (x509_ParseCertificate (Bytes block)) as [c|e] eqn:Hparse;
      try discriminate.
    destruct (_ || _) eqn:Hexp; try discriminate.
    destruct (foundName _) eqn:Hfound; simpl; try discriminate.
    intros [= <-]. split; [|split].
    + split; [done|]. by exists contents, block.
    + by apply server_proofs.expired_iff.
    + by apply server_proofs.foundName_true.
  - intros (Hres & Hin & Hnames). by apply accepts.
Qed.

Lemma returns_cases (r : http_Request) (certReader : CertReader) (now : Time)
    (cert : option Certificate) (err : option error) :
  readValidateCertificate r certReader now = Val (cert, err) ->
  (exists c, cert = Some c /\ err = None) \/ (cert = None /\ exists e, err = Some e).
Proof.
  unfold readValidateCertificate.
  destruct (verifyCertURL _) as [[e|]|p]; simpl; try discriminate.
  { intros [= <- <-]. right. eauto. }
  destruct (certReader _ _) as [contents [e|]].
  { intros [= <- <-]. right. eauto. }
  destruct (pem_Decode contents) as [block|].
  2: { intros [= <- <-]. right. eauto. }
  destruct (x509_ParseCertificate (Bytes block)) as [c|e].
  2: { intros [= <- <-]. right. eauto. }
  destruct (_ || _).
  { intros [= <- <-]. right. eauto. }
  destruct (negb _); intros [= <- <-]; [right | left]; eauto.
Qed.

(** X3. Whenever [readValidateCertificate] returns, it returns either a
    certificate or an error, never both and never neither. *)
Theorem readValidateCertificate_cert_xor_error (r : http_Request)
    (certReader : CertReader) (now : Time)
    (cert : option Certificate) (err : option error) :
  readValidateCertificate r certReader now = Val (cert, err) ->
  (cert = None <-> err <> None).
Proof.
  intros Hret.
  destruct (returns_cases _ _ _ _ _ Hret) as [(c & -> & ->) | (-> & e & ->)].
  - split; [discriminate|]. intros Hne. by destruct Hne.
  - split; [discriminate | done].
Qed.

(** X4. A request without the SignatureCertChainUrl header is rejected as
    not https: the empty string parses to the empty URL. *)
Theorem readValidateCertificate_missing_header (r : http_Request)
    (certReader : CertReader) (now : Time) :
  Header r !! "SignatureCertChainUrl" = None ->
  url_Parse "" = inl (mkURL "" "" "") ->
  readValidateCertificate r certReader now
    = Val (None, Some (errors_New "cert url not https")).
Proof.
  intros Hmiss Hparse. unfold readValidateCertificate, Header_Get.
  rewrite Hmiss. unfold verifyCertURL. by rewrite Hparse.
Qed.

(** X5. An error while reading the body is returned as it is, for every
    certificate: the key is not looked at and the signature not checked. *)
Theorem readValidateBody_read_error_first (r : http_Request) (body : Reader)
    (e : string) :
  Body r = Some body -> final body = Some e ->
  forall c : Certificate,
    readValidateBody r (Some c) = Val (None, Some (errorString e)).
Proof.
  intros Hb Hf c. unfold readValidateBody, io_Copy_Tee.
  rewrite Hb, Hf. by destruct (copy_tee _ _ _).
Qed.

(** X6. [readValidateBody] returns a body only for an RSA key, a body read
    to its end and a signature the library verified against the SHA-1 of
    the bytes read; the body returned is those bytes. *)
Theorem readValidateBody_sound (r : http_Request) (c : option Certificate)
    (b : bytes) (err : option error) :
  readValidateBody r c = Val (Some b, err) ->
  err = None
  /\ exists cert k body,
       c = Some cert /\ PublicKey cert = RSAKey k
       /\ Body r = Some body /\ final body = None
       /\ b = concat (chunks body)
       /\ rsa_VerifyPKCS1v15 k (sha1_Sum b)
            (fst (base64_DecodeString (Header_Get (Header r) "Signature"))) = None.
Proof.
  unfold readValidateBody, io_Copy_Tee.
  destruct c as [cert|]; [|discriminate].
  destruct (Body r) as [body|] eqn:Hb; [|discriminate].
  rewrite server_proofs.copy_tee_concat. simpl.
  destruct (final body) as [e|] eqn:Hf; simpl; [discriminate|].
  destruct (PublicKey cert) as [k| | |] eqn:Hk; try discriminate.
  destruct (rsa_VerifyPKCS1v15 k _ _) eqn:Hv; [discriminate|].
  intros [= <- <-]. split; [done|]. by exists cert, k, body.
Qed.

(** X7. How the body is cut into reads does not matter: two requests with
    the same headers whose bodies read to the end with the same bytes get
    the same result. *)
Theorem readValidateBody_rechunk (r r' : http_Request) (body body' : Reader)
    (c : option Certificate) :
  Header r = Header r' ->
  Body r = Some body -> Body r' = Some body' ->
  final body = None -> final body' = None ->
  concat (chunks body) = concat (chunks body') ->
  readValidateBody r c = readValidateBody r' c.
Proof.
  intros Hh Hb Hb' Hf Hf' Hcat. unfold readValidateBody, io_Copy_Tee.
  rewrite Hh, Hb, Hb', Hf, Hf', !server_proofs.copy_tee_concat, Hcat. done.
Qed.

(** X8. Whenever [readValidateBody] returns, it returns either a body or an
    error, never both and never neither. *)
Theorem readValidateBody_body_xor_error (r : http_Request) (c : option Certificate)
    (b : option bytes) (err : option error) :
  readValidateBody r c = Val (b, err) -> (b = None <-> err <> None).
Proof.
  unfold readValidateBody, io_Copy_Tee.
  destruct c as [cert|]; [|discriminate].
  destruct (Body r) as [body|]; [|discriminate].
  destruct (copy_tee _ _ _) as [hash buf].
  destruct (option_map errorString (final body)).
  { intros [= <- <-]. split; done. }
  destruct (PublicKey cert) as [k| | |]; try discriminate.
  destruct (rsa_VerifyPKCS1v15 k _ _); intros [= <- <-]; split; done.
Qed.

(** X9. Whenever the certificate stage returns an error the handler writes
    the 401 reply and then panics on the nil certificate: the wrapped
    handler is not called. *)
Theorem NewValidatingHandler_certificate_error (certReader : CertReader)
    (now : Time) (r : http_Request) (cert : option Certificate) (e : error) :
  readValidateCertificate r certReader now = Val (cert, Some e) ->
  NewValidatingHandler certReader now r
    = ([http_Error ("Certificate validation failed: " +:+ Error e) StatusUnauthorized],
       Panicked NilDereference).
Proof.
  intros Hc.
  destruct (returns_cases _ _ _ _ _ Hc) as [(c & _ & Hnil) | (-> & _)];
    [discriminate|].
  unfold NewValidatingHandler, lift. rewrite Hc. reflexivity.
Qed.

(** X10. What the handler does, in every case: it writes at most one
    reply, always with status 401; then it either panics, without having
    called the wrapped handler, or calls the wrapped handler once, as its
    last action, with the headers and context of the request. *)
Theorem NewValidatingHandler_shape (certReader : CertReader) (now : Time)
    (r : http_Request) :
  exists replies calls,
    fst (NewValidatingHandler certReader now r) = replies ++ calls
    /\ (replies = [] \/ exists body, replies = [http_Error body 401])
    /\ ((calls = [] /\ exists p, snd (NewValidatingHandler certReader now r) = Panicked p)
        \/ (exists r', calls = [ServeHTTP r']
                       /\ Header r' = Header r /\ req_Context r' = req_Context r
                       /\ snd (NewValidatingHandler certReader now r) = Val tt)).
Proof.
  destruct (readValidateCertificate r certReader now) as [[cert [e|]]|p] eqn:Hc.
  - destruct (returns_cases _ _ _ _ _ Hc) as [(c & _ & Hnil) | (-> & _)];
      [discriminate|].
    unfold NewValidatingHandler, lift. rewrite Hc. cbn.
    eexists [_], []. split; [reflexivity|]. split; [right; eauto|].
    left. split; [done|]. eauto.
  - unfold NewValidatingHandler, lift. rewrite Hc. cbn -[readValidateBody].
    destruct (readValidateBody r cert) as [[body [e|]]|p] eqn:Hb; cbn.
    + eexists [_], [_]. split; [reflexivity|]. split; [right; eauto|].
      right. eexists. by repeat split.
    + exists [], [ServeHTTP (mkRequest (Header r) (option_map NewReader body)
                               (req_Context r))].
      split; [reflexivity|]. split; [by left|]. right. eexists. by repeat split.
    + exists [], []. split; [reflexivity|]. split; [by left|]. left. eauto.
  - unfold NewValidatingHandler, lift. rewrite Hc. cbn.
    exists [], []. split; [reflexivity|]. split; [by left|]. left. eauto.
Qed.

(** X11. End to end: a trusted URL, a certificate valid at [now] that names
    the service and carries an RSA key, a body read to its end and a
    signature the library verifies.  The handler writes nothing and calls
    the wrapped handler with the same headers and a body that reads back as
    exactly the bytes received. *)
Theorem NewValidatingHandler_end_to_end (certReader : CertReader) (now : Time)
    (r : http_Request) (cert : Certificate) (k : rsa_PublicKey) (body : Reader) :
  spec.resolves r certReader cert ->
  Unix (NotBefore cert) <= Unix now <= Unix (NotAfter cert) ->
  spec.names_service cert ->
  PublicKey cert = RSAKey k ->
  Body r = Some body -> final body = None ->
  rsa_VerifyPKCS1v15 k (sha1_Sum (concat (chunks body)))
    (fst (base64_DecodeString (Header_Get (Header r) "Signature"))) = None ->
  exists r',
    NewValidatingHandler certReader now r = ([ServeHTTP r'], Val tt)
    /\ Header r' = Header r /\ req_Context r' = req_Context r
    /\ option_map ReadAll (Body r') = Some (concat (chunks body), None).
Proof.
  intros Hres Hin Hnames Hk Hb Hf Hv.
  exists (mkRequest (Header r) (Some (NewReader (concat (chunks body))))
            (req_Context r)).
  split; [|repeat split].
  - apply (server_proofs.NewValidatingHandler_accepts _ _ _ cert).
    + by apply accepts.
    + by eapply server_proofs.readValidateBody_accepts.
  - simpl. by rewrite server_proofs.ReadAll_NewReader.
Qed.

End Server.
End server_more.

(* ===================================================================== *)
(** * The application handler of package server                           *)
(* ===================================================================== *)

Module server_app_proofs.
Import golang server_app.

Section Handler.
Context `{Json}.

Lemma NewAppHandler_read (app : AppHandler) (r : http_Request) (rd : Reader) :
  Body r = Some rd -> final rd = None ->
  NewAppHandler app r =
    match json_Unmarshal (concat (chunks rd)) with
    | inr e =>
        ([wrote_Error ("Failed to parse request: " +:+ e) StatusBadRequest], Val tt)
    | inl alexaReq =>
        match app (req_Context r) alexaReq with
        | Panicked p => ([], Panicked p)
        | Val (resp, Some e) =>
            if isValidationError e then
              ([wrote_Error ("Failed to validate request: " +:+ Error e)
                  StatusBadRequest], Val tt)
            else
              ([wrote_Error ("Unexpected handling error: " +:+ Error e)
                  StatusInternalServerError], Val tt)
        | Val (resp, None) =>
            match json_Marshal resp with
            | inr e =>
                ([wrote_Error ("Unable to marshal response: " +:+ e)
                    StatusInternalServerError], Val tt)
            | inl out =>
                ([set_Header "Content-Type" "application/json;charset=UTF-8";
                  wrote out], Val tt)
            end
        end
    end.
Proof.
  intros Hb Hf. unfold NewAppHandler, ReadAll. rewrite Hb, Hf. reflexivity.
Qed.

(** X12. An error of the application is answered with status 400 when it is
    a ValidationError and with status 500 otherwise; the response that came
    with the error is dropped. *)
Theorem NewAppHandler_error_status (app : AppHandler) (r : http_Request)
    (rd : Reader) (alexaReq : alexa.RequestEnvelope)
    (resp : option alexa.ResponseEnvelope) (e : error) :
  Body r = Some rd -> final rd = None ->
  json_Unmarshal (concat (chunks rd)) = inl alexaReq ->
  app (req_Context r) alexaReq = Val (resp, Some e) ->
  NewAppHandler app r =
    match e with
    | ValidationError m =>
        ([wrote_Error ("Failed to validate request: " +:+ m) 400], Val tt)
    | errorString m =>
        ([wrote_Error ("Unexpected handling error: " +:+ m) 500], Val tt)
    end.
Proof.
  intros Hb Hf Hj Ha. rewrite (NewAppHandler_read _ _ _ Hb Hf), Hj, Ha.
  by destruct e.
Qed.

(** X13. A body that cannot be read to its end or does not parse is answered
    with status 400 and the application is not asked: the reply is the same
    for every application. *)
Theorem NewAppHandler_bad_body (r : http_Request) (rd : Reader) :
  Body r = Some rd ->
  final rd <> None \/ (exists e, json_Unmarshal (concat (chunks rd)) = inr e) ->
  exists msg, forall app : AppHandler,
    NewAppHandler app r = ([wrote_Error msg 400], Val tt).
Proof.
  intros Hb Hbad. destruct (final rd) as [e|] eqn:Hf.
  - exists "Failed to read request". intros app.
    unfold NewAppHandler, ReadAll. by rewrite Hb, Hf.
  - destruct Hbad as [Hne | [e He]]; [done|].
    exists ("Failed to parse request: " +:+ e). intros app.
    by rewrite (NewAppHandler_read _ _ _ Hb Hf), He.
Qed.

(** X14. Every request gets at most one reply: the handler either panics
    having written nothing, or writes one error with status 400 or 500, or
    sets the JSON content type and writes one body. *)
Theorem NewAppHandler_one_reply (app : AppHandler) (r : http_Request) :
  (fst (NewAppHandler app r) = [] /\ exists p, snd (NewAppHandler app r) = Panicked p)
  \/ (snd (NewAppHandler app r) = Val tt
      /\ ((exists body code, fst (NewAppHandler app r) = [wrote_Error body code]
                             /\ (code = 400 \/ code = 500))
          \/ (exists out, fst (NewAppHandler app r)
                = [set_Header "Content-Type" "application/json;charset=UTF-8";
                   wrote out]))).
Proof.
  unfold NewAppHandler.
  destruct (Body r) as [rd|]; [|left; eauto].
  destruct (ReadAll rd) as [body [e|]]; [right; split; [done|]; left; eauto|].
  destruct (json_Unmarshal body) as [alexaReq|e];
    [|right; split; [done|]; left; eauto].
  destruct (app _ _) as [[resp [e|]]|p]; [| |left; eauto].
  - destruct (isValidationError e); right; (split; [done|]); left; eauto.
  - destruct (json_Marshal resp) as [out|e]; right; (split; [done|]).
    + right. eauto.
    + left. eauto.
Qed.

(** X15. The handler answers with JSON exactly when the body was read to its
    end, parsed, handled without an error and the response marshalled; what
    it writes is that marshalled response. *)
Theorem NewAppHandler_json_iff (app : AppHandler) (r : http_Request) (out : bytes) :
  NewAppHandler app r
    = ([set_Header "Content-Type" "application/json;charset=UTF-8"; wrote out], Val tt)
  <-> exists rd alexaReq resp,
        Body r = Some rd /\ final rd = None
        /\ json_Unmarshal (concat (chunks rd)) = inl alexaReq
        /\ app (req_Context r) alexaReq = Val (resp, None)
        /\ json_Marshal resp = inl out.
Proof.
  split.
  - unfold NewAppHandler, ReadAll.
    destruct (Body r) as [rd|]; [|discriminate].
    destruct (final rd) as [e|] eqn:Hf; simpl; [discriminate|].
    destruct (json_Unmarshal _) as [alexaReq|e] eqn:Hj; [|discriminate].
    destruct (app _ _) as [[resp [e|]]|p] eqn:Ha; try discriminate.
    { destruct (isValidationError e); discriminate. }
    destruct (json_Marshal resp) as [out'|e] eqn:Hm; [|discriminate].
    intros [= <-]. by exists rd, alexaReq, resp.
  - intros (rd & alexaReq & resp & Hb & Hf & Hj & Ha & Hm).
    by rewrite (NewAppHandler_read _ _ _ Hb Hf), Hj, Ha, Hm.
Qed.

(** X16. A parsed envelope without its request part makes the routing App
    panic on [r.Request.Type]; nothing is written. *)
Theorem NewAppHandler_no_request (a : alexa.App) (r : http_Request) (rd : Reader)
    (alexaReq : alexa.RequestEnvelope) :
  Body r = Some rd -> final rd = None ->
  json_Unmarshal (concat (chunks rd)) = inl alexaReq ->
  alexa.Request_ alexaReq = None ->
  NewAppHandler (alexa.App_Handle a) r = ([], Panicked NilDereference).
Proof.
  intros Hb Hf Hj Hreq. rewrite (NewAppHandler_read _ _ _ Hb Hf), Hj.
  unfold alexa.App_Handle. by rewrite Hreq.
Qed.

Context `{Stdlib}.

(** X17. Behind the validating handler a failed signature is answered with
    401 and the application handler, called all the same, panics on the nil
    body before it reaches the application. *)
Theorem ValidatingHandler_signature_failure (app : AppHandler)
    (certReader : server.CertReader) (now : Time) (r : http_Request)
    (cert : Certificate) (e : error) :
  server.readValidateCertificate r certReader now = Val (Some cert, None) ->
  server.readValidateBody r (Some cert) = Val (None, Some e) ->
  ValidatingHandler (NewAppHandler app) certReader now r
    = ([wrote_Error ("Signature validation failed: " +:+ Error e) 401],
       Panicked NilDereference).
Proof.
  intros Hc Hb. unfold ValidatingHandler, server.NewValidatingHandler, server.lift.
  rewrite Hc. cbn -[server.readValidateBody]. rewrite Hb. reflexivity.
Qed.

(** X18. End to end behind the validating handler: for an authentic request
    the application is given the envelope parsed from exactly the bytes
    received, and its marshalled response is the only thing written. *)
Theorem ValidatingHandler_end_to_end (app : AppHandler)
    (certReader : server.CertReader) (now : Time) (r : http_Request)
    (cert : Certificate) (k : rsa_PublicKey) (body : Reader)
    (alexaReq : alexa.RequestEnvelope) (resp : option alexa.ResponseEnvelope)
    (out : bytes) :
  spec.resolves r certReader cert ->
  Unix (NotBefore cert) <= Unix now <= Unix (NotAfter cert) ->
  spec.names_service cert ->
  PublicKey cert = RSAKey k ->
  Body r = Some body -> final body = None ->
  rsa_VerifyPKCS1v15 k (sha1_Sum (concat (chunks body)))
    (fst (base64_DecodeString (Header_Get (Header r) "Signature"))) = None ->
  json_Unmarshal (concat (chunks body)) = inl alexaReq ->
  app (req_Context r) alexaReq = Val (resp, None) ->
  json_Marshal resp = inl out ->
  ValidatingHandler (NewAppHandler app) certReader now r
    = ([set_Header "Content-Type" "application/json;charset=UTF-8"; wrote out],
       Val tt).
Proof.
  intros Hres Hin Hnames Hk Hb Hf Hv Hj Ha Hm. unfold ValidatingHandler.
  rewrite (server_proofs.NewValidatingHandler_accepts _ _ _ cert
             (concat (chunks body))).
  - cbn [run]. erewrite NewAppHandler_read; [|reflexivity..].
    cbn [chunks NewReader concat]. rewrite app_nil_r, Hj. cbn [req_Context].
    rewrite Ha, Hm. reflexivity.
  - by apply server_more.accepts.
  - by eapply server_proofs.readValidateBody_accepts.
Qed.

End Handler.
End server_app_proofs.

(* ===================================================================== *)
(** * The routing App and the strict wrapper                              *)
(* ===================================================================== *)

Module alexa_more.
Import golang alexa.

Lemma eqb_false_of_ne (a b : string) : a <> b -> String.eqb a b = false.
Proof. intros Hne. by apply String.eqb_neq. Qed.

Lemma App_Handle_returns (a : App) (ctx : context_Context) (r : RequestEnvelope)
    (out : option ResponseEnvelope * option error) :
  App_Handle a ctx r = Val out ->
  exists req p, Request_ r = Some req /\ kinds.finish r (Type_ req) p = Val out.
Proof.
  unfold App_Handle, mbind, result_bind.
  destruct (Request_ r) as [req|]; [|discriminate]. cbn [deref bind].
  match goal with |- bind ?m _ = _ -> _ => destruct m as [[resp err]|p] end;
    [|discriminate].
  cbn [bind]. intros Hout. exists req, (resp, err). split; [done|].
  unfold kinds.finish, kinds.attributes. cbn [fst snd]. by destruct err.
Qed.

(** X19. Every return of [App.Handle] carries either a response envelope or
    an error, never both and never neither. *)
Theorem App_Handle_envelope_xor_error (a : App) (ctx : context_Context)
    (r : RequestEnvelope) (env : option ResponseEnvelope) (err : option error) :
  App_Handle a ctx r = Val (env, err) -> (env = None <-> err <> None).
Proof.
  intros Hret. destruct (App_Handle_returns _ _ _ _ Hret) as (req & [resp e] & _ & Hfin).
  unfold kinds.finish in Hfin. cbn [fst snd] in Hfin.
  destruct e as [e|]; [destruct (isValidationError e)|];
    injection Hfin as <- <-; split; done.
Qed.

(** X20. A response envelope of [App.Handle] has version 1.0 and carries
    the attributes of the request's session, or none when the request has
    no session. *)
Theorem App_Handle_envelope (a : App) (ctx : context_Context)
    (r : RequestEnvelope) (env : ResponseEnvelope) (err : option error) :
  App_Handle a ctx r = Val (Some env, err) ->
  RespVersion env = "1.0" /\ SessionAttributes env = kinds.attributes r.
Proof.
  intros Hret. destruct (App_Handle_returns _ _ _ _ Hret) as (req & [resp e] & _ & Hfin).
  unfold kinds.finish in Hfin. cbn [fst snd] in Hfin.
  destruct e as [e|]; [destruct (isValidationError e); discriminate|].
  injection Hfin as <- <-. done.
Qed.

Lemma App_Handle_dispatch (a : App) (ctx : context_Context)
    (r : RequestEnvelope) (req : Request) :
  Request_ r = Some req ->
  App_Handle a ctx r =
    match routing.dispatch a ctx r req with
    | Val p => kinds.finish r (Type_ req) p
    | Panicked q => Panicked q
    end.
Proof.
  intros Hreq. unfold App_Handle, routing.dispatch, mbind, result_bind.
  rewrite Hreq. cbn [deref bind].
  match goal with |- bind ?m _ = _ => destruct m as [[resp err]|q] end;
    [|reflexivity].
  unfold kinds.finish, kinds.attributes. cbn [bind fst snd]. by destruct err.
Qed.

(** X21. [App.Handle] returns an error exactly when the switch on the
    request type produced one, from the handler the request was routed to
    or from the unhandled-type default.  A ValidationError is passed on
    unchanged; any other error is replaced by the string error "failed to
    handle <type> request: <message of that error>".  No envelope comes
    with it. *)
Theorem App_Handle_error (a : App) (ctx : context_Context)
    (r : RequestEnvelope) (env : option ResponseEnvelope) (e : error) :
  App_Handle a ctx r = Val (env, Some e)
  <-> env = None
      /\ exists req resp cause,
            Request_ r = Some req
            /\ routing.dispatch a ctx r req = Val (resp, Some cause)
            /\ e = match cause with
                   | ValidationError _ => cause
                   | errorString m =>
                       errorString ("failed to handle " +:+ Type_ req
                                    +:+ " request: " +:+ m)
                   end.
Proof.
  split.
  - intros Hret. destruct (Request_ r) as [req|] eqn:Hreq.
    2: { unfold App_Handle in Hret. rewrite Hreq in Hret. discriminate. }
    rewrite (App_Handle_dispatch _ _ _ _ Hreq) in Hret.
    destruct (routing.dispatch a ctx r req) as [[resp [cause|]]|q] eqn:Hd;
      unfold kinds.finish in Hret; cbn [fst snd] in Hret; try discriminate.
    destruct cause as [m|m]; cbn [isValidationError Error] in Hret;
      injection Hret as <- <-; (split; [done|]);
      exists req, resp; eexists; (split; [done|]); (split; [done|]); reflexivity.
  - intros (-> & req & resp & cause & Hreq & Hd & ->).
    rewrite (App_Handle_dispatch _ _ _ _ Hreq), Hd.
    unfold kinds.finish. cbn [fst snd]. by destruct cause.
Qed.

(** X22. A request whose type is none of the three session types and none
    of the five audio types is refused with a ValidationError naming the
    type, whatever the handlers are, unset ones included. *)
Theorem App_Handle_unhandled (a : App) (ctx : context_Context)
    (r : RequestEnvelope) (req : Request) :
  Request_ r = Some req ->
  Type_ req ∉ kinds.session_types -> Type_ req ∉ kinds.audio_types ->
  App_Handle a ctx r
    = Val (None, Some (ValidationError ("unhandled request type: " +:+ Type_ req))).
Proof.
  unfold kinds.session_types, kinds.audio_types.
  rewrite !not_elem_of_cons. intros Hreq (Hl & Hi & He & _) (H1 & H2 & H3 & H4 & H5 & _).
  unfold App_Handle, handleAudio, mbind, result_bind. rewrite Hreq. cbn [deref bind].
  rewrite !(eqb_false_of_ne _ _ Hl), !(eqb_false_of_ne _ _ Hi),
          !(eqb_false_of_ne _ _ He).
  destruct (HasPrefix (Type_ req) "AudioPlayer."); [|reflexivity].
  rewrite (eqb_false_of_ne _ _ H1), (eqb_false_of_ne _ _ H2),
          (eqb_false_of_ne _ _ H3), (eqb_false_of_ne _ _ H4),
          (eqb_false_of_ne _ _ H5).
  reflexivity.
Qed.

(** X23. With no audio handler set, each of the five audio request types
    makes [App.Handle] panic; with no session handler set, so does each of
    the three session request types. *)
Theorem App_Handle_unset_handler (a : App) (ctx : context_Context)
    (r : RequestEnvelope) (req : Request) :
  Request_ r = Some req ->
  (App_AudioHandler a = None /\ Type_ req ∈ kinds.audio_types)
  \/ (App_SessionHandler a = None /\ Type_ req ∈ kinds.session_types) ->
  App_Handle a ctx r = Panicked NilDereference.
Proof.
  unfold kinds.session_types, kinds.audio_types.
  intros Hreq [[Hnil Hty] | [Hnil Hty]];
    repeat (apply elem_of_cons in Hty as [Hty | Hty]);
    try (by apply elem_of_nil in Hty);
    unfold App_Handle, handleAudio, mbind, result_bind;
    rewrite Hreq; cbn [deref bind]; rewrite Hty, Hnil; reflexivity.
Qed.

(** X24. A response of [handleAudio] always ends the session, says nothing,
    and has no directive list rather than an empty one. *)
Theorem handleAudio_response (a : App) (ctx : context_Context)
    (r : RequestEnvelope) (resp : Response) (err : option error) :
  handleAudio a ctx r = Val (Some resp, err) ->
  err = None /\ ShouldSessionEnd resp = true /\ OutputSpeech resp = None
  /\ Directives resp <> Some [].
Proof.
  unfold handleAudio, mbind, result_bind.
  destruct (Request_ r) as [req|]; [|discriminate]. cbn [deref bind].
  match goal with |- bind ?m _ = _ -> _ => destruct m as [[ds e]|p] end;
    [|discriminate].
  cbn [bind]. destruct e as [e|]; [discriminate|].
  destruct ds as [|d ds]; cbn; intros [= <- <-]; repeat split; done.
Qed.

(** [App.Handle] never looks at the application identity it was
    configured with: two Apps with the same handlers answer alike. *)
Theorem App_Handle_ignores_ApplicationID (id id' : string)
    (sh : option SessionHandler) (ah : option AudioHandler)
    (ctx : context_Context) (r : RequestEnvelope) :
  App_Handle {| App_ApplicationID := id; App_SessionHandler := sh;
                App_AudioHandler := ah |} ctx r
  = App_Handle {| App_ApplicationID := id'; App_SessionHandler := sh;
                  App_AudioHandler := ah |} ctx r.
Proof. reflexivity. Qed.

Section Strict.
Context `{Stdlib}.

(** X25. [StrictVerificationApp.Handle] answers with a response envelope
    only for a request that names the expected, non-empty application and
    carries a timestamp that parses and lies at most 150 seconds from
    [now]; the envelope is that of the wrapped App. *)
Theorem Handle_sound (s : StrictVerificationApp) (ctx : context_Context)
    (r : RequestEnvelope) (now : Time) (env : ResponseEnvelope)
    (err : option error) :
  Handle s ctx r now = Val (Some env, err) ->
  exists sess req ts,
    Session_ r = Some sess
    /\ ApplicationID (Application sess) <> ""
    /\ ApplicationID (Application sess) = App_ApplicationID (App_ s)
    /\ Request_ r = Some req
    /\ time_Parse_RFC3339 (Timestamp req) = inl ts
    /\ Z.abs (spec.elapsed now ts) <= 150 * 1000000000
    /\ App_Handle (App_ s) ctx r = Val (Some env, err).
Proof.
  unfold Handle, mbind, result_bind.
  destruct (Session_ r) as [sess|] eqn:Hs.
  2: { unfold validateApplicationID. rewrite Hs. discriminate. }
  rewrite (alexa_proofs.validateApplicationID_session _ _ _ Hs).
  destruct (String.eqb_spec (ApplicationID (Application sess)) "") as [|Hne];
    [discriminate|].
  destruct (String.eqb_spec (ApplicationID (Application sess))
              (App_ApplicationID (App_ s))) as [Hid|]; [|discriminate].
  cbn [negb bind].
  destruct (Request_ r) as [req|] eqn:Hreq.
  2: { unfold validateTimestamp. rewrite Hreq. discriminate. }
  destruct (time_Parse_RFC3339 (Timestamp req)) as [ts|msg] eqn:Hts.
  2: { rewrite (alexa_proofs.validateTimestamp_request _ _ now _ Hreq), Hts.
       discriminate. }
  destruct (alexa_proofs.validateTimestamp_parsed _ _ _ now Hreq Hts) as [Hacc _].
  destruct (validateTimestamp r now (inject_Z 150)) as [[e|]|p]; try discriminate.
  cbn [bind]. intros Hret. exists sess, req, ts.
  repeat split; try done. by apply Hacc.
Qed.

End Strict.
End alexa_more.

(* ===================================================================== *)
(** * package lambda and the basic example                                *)
(* ===================================================================== *)

Module lambda_proofs.
Import golang server_app lambda.

Section Debug.
Context `{Json} `{Runtime}.

(** X26. The debug handler returns the response of the wrapped handler
    unchanged, but not its error: the error returned is that of marshalling
    the response for the log, so an error of the wrapped handler is lost
    whenever its response marshals. *)
Theorem NewDebugHandler_result (h : Handler) (ctx : context_Context)
    (r : alexa.RequestEnvelope) (resp : option alexa.ResponseEnvelope)
    (err : option error) :
  h ctx r = Val (resp, err) ->
  snd (NewDebugHandler h ctx r)
    = Val (resp, match json_Marshal resp with
                 | inl _ => None
                 | inr e => Some (errorString e)
                 end).
Proof.
  intros Hh. unfold NewDebugHandler. rewrite Hh.
  by destruct (json_Marshal resp).
Qed.


(** A panic of the wrapped handler passes through the debug handler
    after the request line alone was logged. *)
Theorem NewDebugHandler_panic (h : Handler) (ctx : context_Context)
    (r : alexa.RequestEnvelope) (p : panic) :
  h ctx r = Panicked p ->
  snd (NewDebugHandler h ctx r) = Panicked p
  /\ length (fst (NewDebugHandler h ctx r)) = 1%nat.
Proof. intros Hh. unfold NewDebugHandler. by rewrite Hh. Qed.

(** X28. The basic example: an intent other than AMAZON.StopIntent fails in
    the App with "failed to handle IntentRequest request: unhandled intent:
    <name>", and the handler [main] installs returns neither a response nor
    that error, provided a nil response marshals. *)
Theorem basic_unknown_intent (appID : string) (ctx : context_Context)
    (r : alexa.RequestEnvelope) (req : alexa.Request) (out : bytes) :
  alexa.Request_ r = Some req ->
  alexa.Type_ req = "IntentRequest" ->
  alexa.IntentName req <> "AMAZON.StopIntent" ->
  json_Marshal None = inl out ->
  alexa.App_Handle (basic.newApp appID) ctx r
    = Val (None, Some (errorString
             ("failed to handle IntentRequest request: unhandled intent: "
              +:+ alexa.IntentName req)))
  /\ snd (basic.handler appID ctx r) = Val (None, None).
Proof.
  intros Hreq Hty Hname Hm.
  assert (alexa.App_Handle (basic.newApp appID) ctx r
          = Val (None, Some (errorString
                   ("failed to handle IntentRequest request: unhandled intent: "
                    +:+ alexa.IntentName req)))) as Happ.
  { unfold alexa.App_Handle, mbind, result_bind. rewrite Hreq.
    cbn [alexa.deref bind]. rewrite Hty. cbn.
    rewrite (alexa_more.eqb_false_of_ne _ _ Hname). reflexivity. }
  split; [exact Happ|].
  unfold basic.handler, NewAppHandler, NewDebugHandler. rewrite Happ, Hm.
  reflexivity.
Qed.

(** X29. The basic example: AMAZON.StopIntent is answered with "Goodbye",
    the session ended, in an envelope of version 1.0 with the session's
    attributes. *)
Theorem basic_stop_intent (appID : string) (ctx : context_Context)
    (r : alexa.RequestEnvelope) (req : alexa.Request) :
  alexa.Request_ r = Some req ->
  alexa.Type_ req = "IntentRequest" ->
  alexa.IntentName req = "AMAZON.StopIntent" ->
  alexa.App_Handle (basic.newApp appID) ctx r
    = Val (Some {| alexa.RespVersion := "1.0";
                   alexa.SessionAttributes := kinds.attributes r;
                   alexa.Response_ :=
                     Some {| alexa.OutputSpeech := Some ("PlainText", "Goodbye");
                             alexa.Directives := None;
                             alexa.ShouldSessionEnd := true |} |}, None).
Proof.
  intros Hreq Hty Hname.
  unfold alexa.App_Handle, mbind, result_bind. rewrite Hreq.
  cbn [alexa.deref bind]. rewrite Hty. cbn. rewrite Hname. reflexivity.
Qed.

(** X30. The basic example sets no audio handler: each of the five audio
    request types makes it panic. *)
Theorem basic_audio_panics (appID : string) (ctx : context_Context)
    (r : alexa.RequestEnvelope) (req : alexa.Request) :
  alexa.Request_ r = Some req ->
  alexa.Type_ req ∈ kinds.audio_types ->
  alexa.App_Handle (basic.newApp appID) ctx r = Panicked NilDereference
  /\ snd (basic.handler appID ctx r) = Panicked NilDereference.
Proof.
  intros Hreq Hty.
  assert (alexa.App_Handle (basic.newApp appID) ctx r = Panicked NilDereference)
    as Happ.
  { unfold kinds.audio_types in Hty.
    repeat (apply elem_of_cons in Hty as [Hty | Hty]);
      try (by apply elem_of_nil in Hty);
      unfold alexa.App_Handle, alexa.handleAudio, mbind, result_bind;
      rewrite Hreq; cbn [alexa.deref bind]; rewrite Hty; reflexivity. }
  split; [exact Happ|].
  unfold basic.handler, NewAppHandler, NewDebugHandler. by rewrite Happ.
Qed.

End Debug.
End lambda_proofs.

(* ===================================================================== *)
(** * The further theorems at the canned requests                         *)
(* ===================================================================== *)

Module more_examples.
Import golang canned canned_json.

Lemma readValidateCertificate_untrusted_url_witness :
  @server.verifyCertURL canned.stdlib
     (Header_Get (Header (request plainURL "c2ln")) "SignatureCertChainUrl")
    = Val (Some (errorString "cert url not https"))
  /\ @server.readValidateCertificate canned.stdlib (request plainURL "c2ln") nobody now
     = Val (None, Some (errorString "cert url not https")).
Proof.
  assert (@server.verifyCertURL canned.stdlib
            (Header_Get (Header (request plainURL "c2ln")) "SignatureCertChainUrl")
          = Val (Some (errorString "cert url not https"))) as Hurl
    by (vm_compute; reflexivity).
  split; [exact Hurl|].
  exact (@server_more.readValidateCertificate_untrusted_url canned.stdlib
           (request plainURL "c2ln") _ Hurl nobody now).
Defined.

Lemma signed_certificate :
  @server.readValidateCertificate canned.stdlib signed certReader now
    = Val (Some rsaCert, None).
Proof. vm_compute; reflexivity. Defined.

Lemma signed_body :
  @server.readValidateBody canned.stdlib signed (Some rsaCert)
    = Val (Some (str "{}"), None).
Proof. vm_compute; reflexivity. Defined.

Lemma tampered_certificate :
  @server.readValidateCertificate canned.stdlib tampered certReader now
    = Val (Some rsaCert, None).
Proof. vm_compute; reflexivity. Defined.

Lemma tampered_body :
  @server.readValidateBody canned.stdlib tampered (Some rsaCert)
    = Val (None, Some (errorString "signature match failed")).
Proof. vm_compute; reflexivity. Defined.

Lemma signed_window :
  Unix (NotBefore rsaCert) <= Unix now <= Unix (NotAfter rsaCert).
Proof. split; intros Hgt; discriminate Hgt. Defined.

Lemma signed_names : spec.names_service rsaCert.
Proof.
  exists (mkAttr [2; 5; 4; 3] (AnyString "echo-api.amazon.com")).
  split; [|reflexivity]. do 2 apply list_elem_of_further. apply list_elem_of_here.
Defined.

Lemma signed_verifies :
  @rsa_VerifyPKCS1v15 canned.stdlib rsaKey
     (@sha1_Sum canned.stdlib (concat (chunks body)))
     (fst (@base64_DecodeString canned.stdlib (Header_Get (Header signed) "Signature")))
  = None.
Proof. vm_compute; reflexivity. Defined.

Lemma readValidateCertificate_cert_xor_error_witness :
  @server.readValidateCertificate canned.stdlib signed certReader now
    = Val (Some rsaCert, None)
  /\ (Some rsaCert = None <-> @None error <> None).
Proof.
  split; [exact signed_certificate|].
  exact (@server_more.readValidateCertificate_cert_xor_error canned.stdlib
           signed certReader now _ _ signed_certificate).
Defined.

Lemma readValidateCertificate_missing_header_witness :
  Header bare !! "SignatureCertChainUrl" = None
  /\ @url_Parse canned.stdlib "" = inl (mkURL "" "" "")
  /\ @server.readValidateCertificate canned.stdlib bare certReader now
     = Val (None, Some (errors_New "cert url not https")).
Proof.
  split; [reflexivity|]. split; [reflexivity|].
  exact (@server_more.readValidateCertificate_missing_header canned.stdlib
           bare certReader now eq_refl eq_refl).
Defined.

Lemma readValidateBody_read_error_first_witness :
  Body interrupted = Some broken /\ final broken = Some "unexpected EOF"
  /\ @server.readValidateBody canned.stdlib interrupted (Some ecCert)
     = Val (None, Some (errorString "unexpected EOF")).
Proof.
  split; [reflexivity|]. split; [reflexivity|].
  exact (@server_more.readValidateBody_read_error_first canned.stdlib
           interrupted broken _ eq_refl eq_refl ecCert).
Defined.

Lemma readValidateBody_sound_witness :
  @server.readValidateBody canned.stdlib signed (Some rsaCert)
    = Val (Some (str "{}"), None)
  /\ @None error = None.
Proof.
  split; [exact signed_body|].
  exact (proj1 (@server_more.readValidateBody_sound canned.stdlib
                  signed (Some rsaCert) (str "{}") None signed_body)).
Defined.

Lemma readValidateBody_rechunk_witness :
  Header signed = Header whole
  /\ concat (chunks body) = concat [str "{}"]
  /\ @server.readValidateBody canned.stdlib signed (Some rsaCert)
     = @server.readValidateBody canned.stdlib whole (Some rsaCert).
Proof.
  split; [reflexivity|]. split; [reflexivity|].
  exact (@server_more.readValidateBody_rechunk canned.stdlib signed whole
           body (mkReader [str "{}"] None) (Some rsaCert)
           eq_refl eq_refl eq_refl eq_refl eq_refl eq_refl).
Defined.

Lemma readValidateBody_body_xor_error_witness :
  @server.readValidateBody canned.stdlib tampered (Some rsaCert)
    = Val (None, Some (errorString "signature match failed"))
  /\ (@None bytes = None <-> Some (errorString "signature match failed") <> None).
Proof.
  split; [exact tampered_body|].
  exact (@server_more.readValidateBody_body_xor_error canned.stdlib
           tampered (Some rsaCert) _ _ tampered_body).
Defined.

Lemma plain_certificate :
  @server.readValidateCertificate canned.stdlib (request plainURL "c2ln")
     certReader now
    = Val (None, Some (errorString "cert url not https")).
Proof. vm_compute; reflexivity. Defined.

Lemma NewValidatingHandler_certificate_error_witness :
  @server.readValidateCertificate canned.stdlib (request plainURL "c2ln")
     certReader now
    = Val (None, Some (errorString "cert url not https"))
  /\ @server.NewValidatingHandler canned.stdlib certReader now (request plainURL "c2ln")
     = ([server.http_Error "Certificate validation failed: cert url not https" 401],
        Panicked NilDereference).
Proof.
  split; [exact plain_certificate|].
  exact (@server_more.NewValidatingHandler_certificate_error canned.stdlib
           certReader now (request plainURL "c2ln") _ _ plain_certificate).
Defined.

Lemma NewValidatingHandler_end_to_end_witness :
  @spec.resolves canned.stdlib signed certReader rsaCert
  /\ spec.names_service rsaCert
  /\ exists r',
       @server.NewValidatingHandler canned.stdlib certReader now signed
         = ([server.ServeHTTP r'], Val tt)
       /\ Header r' = Header signed /\ req_Context r' = req_Context signed
       /\ option_map ReadAll (Body r') = Some (concat (chunks body), None).
Proof.
  split; [exact examples.signed_resolves|]. split; [exact signed_names|].
  exact (@server_more.NewValidatingHandler_end_to_end canned.stdlib certReader now
           signed rsaCert rsaKey body examples.signed_resolves signed_window
           signed_names eq_refl eq_refl eq_refl signed_verifies).
Defined.

(** ** The application handler *)

Lemma NewAppHandler_error_status_witness :
  @server_app.json_Unmarshal json (concat (chunks body)) = inl zero
  /\ refuser (req_Context signed) zero = Val (None, Some (ValidationError "not today"))
  /\ @server_app.NewAppHandler json refuser signed
     = ([server_app.wrote_Error "Failed to validate request: not today" 400], Val tt).
Proof.
  split; [reflexivity|]. split; [reflexivity|].
  exact (@server_app_proofs.NewAppHandler_error_status json refuser signed body
           zero None (ValidationError "not today") eq_refl eq_refl eq_refl eq_refl).
Defined.

Lemma NewAppHandler_bad_body_witness :
  Body interrupted = Some broken
  /\ final broken <> None
  /\ exists msg, forall app : server_app.AppHandler,
       @server_app.NewAppHandler json app interrupted
         = ([server_app.wrote_Error msg 400], Val tt).
Proof.
  assert (final broken <> None) as Hne by (intros Heq; discriminate Heq).
  split; [reflexivity|]. split; [exact Hne|].
  exact (@server_app_proofs.NewAppHandler_bad_body json interrupted broken
           eq_refl (or_introl Hne)).
Defined.

Lemma NewAppHandler_no_request_witness :
  @server_app.json_Unmarshal json (concat (chunks body)) = inl zero
  /\ alexa.Request_ zero = None
  /\ @server_app.NewAppHandler json (alexa.App_Handle (basic.newApp skill)) signed
     = ([], Panicked NilDereference).
Proof.
  split; [reflexivity|]. split; [reflexivity|].
  exact (@server_app_proofs.NewAppHandler_no_request json (basic.newApp skill)
           signed body zero eq_refl eq_refl eq_refl eq_refl).
Defined.

Lemma ValidatingHandler_signature_failure_witness :
  @server.readValidateCertificate canned.stdlib tampered certReader now
    = Val (Some rsaCert, None)
  /\ @server.readValidateBody canned.stdlib tampered (Some rsaCert)
     = Val (None, Some (errorString "signature match failed"))
  /\ @server_app.ValidatingHandler canned.stdlib
       (@server_app.NewAppHandler json greeter) certReader now tampered
     = ([server_app.wrote_Error
           "Signature validation failed: signature match failed" 401],
        Panicked NilDereference).
Proof.
  split; [exact tampered_certificate|]. split; [exact tampered_body|].
  exact (@server_app_proofs.ValidatingHandler_signature_failure json canned.stdlib
           greeter certReader now tampered rsaCert _
           tampered_certificate tampered_body).
Defined.

Lemma ValidatingHandler_end_to_end_witness :
  @spec.resolves canned.stdlib signed certReader rsaCert
  /\ greeter (req_Context signed) zero = Val (Some reply, None)
  /\ @server_app.ValidatingHandler canned.stdlib
       (@server_app.NewAppHandler json greeter) certReader now signed
     = ([server_app.set_Header "Content-Type" "application/json;charset=UTF-8";
         server_app.wrote (str "<response>")], Val tt).
Proof.
  split; [exact examples.signed_resolves|]. split; [reflexivity|].
  exact (@server_app_proofs.ValidatingHandler_end_to_end json canned.stdlib
           greeter certReader now signed rsaCert rsaKey body zero (Some reply)
           (str "<response>") examples.signed_resolves signed_window signed_names
           eq_refl eq_refl eq_refl signed_verifies eq_refl eq_refl eq_refl).
Defined.

(** ** The routing App and the strict wrapper *)

Lemma launch_answer :
  alexa.App_Handle (basic.newApp skill) Background
    (envelope (Some (session skill)) stamp)
  = Val (Some {| alexa.RespVersion := "1.0"; alexa.SessionAttributes := None;
                 alexa.Response_ := Some welcome |}, None).
Proof. vm_compute; reflexivity. Defined.

Lemma other_answer :
  alexa.App_Handle (basic.newApp skill) Background (intent "Other")
  = Val (None, Some (errorString
           "failed to handle IntentRequest request: unhandled intent: Other")).
Proof. vm_compute; reflexivity. Defined.

Lemma App_Handle_envelope_xor_error_witness :
  alexa.App_Handle (basic.newApp skill) Background (intent "Other")
    = Val (None, Some (errorString
             "failed to handle IntentRequest request: unhandled intent: Other"))
  /\ (@None alexa.ResponseEnvelope = None
      <-> Some (errorString
            "failed to handle IntentRequest request: unhandled intent: Other")
          <> None).
Proof.
  split; [exact other_answer|].
  exact (alexa_more.App_Handle_envelope_xor_error _ _ _ _ _ other_answer).
Defined.

Lemma App_Handle_envelope_witness :
  alexa.App_Handle (basic.newApp skill) Background
    (envelope (Some (session skill)) stamp)
  = Val (Some {| alexa.RespVersion := "1.0"; alexa.SessionAttributes := None;
                 alexa.Response_ := Some welcome |}, None)
  /\ kinds.attributes (envelope (Some (session skill)) stamp) = None.
Proof.
  split; [exact launch_answer|].
  exact (eq_sym (proj2 (alexa_more.App_Handle_envelope _ _ _ _ _ launch_answer))).
Defined.

Lemma App_Handle_error_witness :
  alexa.App_Handle (basic.newApp skill) Background (intent "Other")
    = Val (None, Some (errorString
             "failed to handle IntentRequest request: unhandled intent: Other"))
  /\ exists req resp cause,
       alexa.Request_ (intent "Other") = Some req
       /\ routing.dispatch (basic.newApp skill) Background (intent "Other") req
          = Val (resp, Some cause)
       /\ errorString "failed to handle IntentRequest request: unhandled intent: Other"
          = match cause with
            | ValidationError _ => cause
            | errorString m =>
                errorString ("failed to handle " +:+ alexa.Type_ req
                             +:+ " request: " +:+ m)
            end.
Proof.
  split; [exact other_answer|].
  exact (proj2 (proj1 (alexa_more.App_Handle_error _ _ _ _ _) other_answer)).
Defined.

Lemma not_in (x : string) (l : list string) :
  forallb (fun y => negb (String.eqb x y)) l = true -> x ∉ l.
Proof.
  induction l as [|y l IH]; simpl.
  - intros _. apply not_elem_of_nil.
  - intros Hall. apply andb_prop in Hall as [Hy Hl].
    apply not_elem_of_cons. split; [|by apply IH].
    intros ->. by rewrite String.eqb_refl in Hy.
Defined.

Lemma App_Handle_unhandled_witness :
  ("CanFulfillIntentRequest" ∉ kinds.session_types)
  /\ ("CanFulfillIntentRequest" ∉ kinds.audio_types)
  /\ alexa.App_Handle (basic.newApp skill) Background (audio "CanFulfillIntentRequest")
     = Val (None, Some (ValidationError
              "unhandled request type: CanFulfillIntentRequest")).
Proof.
  assert ("CanFulfillIntentRequest" ∉ kinds.session_types) as Hs
    by (apply not_in; reflexivity).
  assert ("CanFulfillIntentRequest" ∉ kinds.audio_types) as Ha
    by (apply not_in; reflexivity).
  split; [exact Hs|]. split; [exact Ha|].
  exact (alexa_more.App_Handle_unhandled (basic.newApp skill) Background
           (audio "CanFulfillIntentRequest") _ eq_refl Hs Ha).
Defined.

Lemma started_is_audio : "AudioPlayer.PlaybackStarted" ∈ kinds.audio_types.
Proof. apply list_elem_of_here. Defined.

Lemma App_Handle_unset_handler_witness :
  alexa.App_AudioHandler (basic.newApp skill) = None
  /\ "AudioPlayer.PlaybackStarted" ∈ kinds.audio_types
  /\ alexa.App_Handle (basic.newApp skill) Background
       (audio "AudioPlayer.PlaybackStarted")
     = Panicked NilDereference.
Proof.
  split; [reflexivity|]. split; [exact started_is_audio|].
  exact (alexa_more.App_Handle_unset_handler (basic.newApp skill) Background
           (audio "AudioPlayer.PlaybackStarted") _ eq_refl
           (or_introl (conj eq_refl started_is_audio))).
Defined.

Lemma jukebox_answer :
  alexa.handleAudio jukebox Background (audio "AudioPlayer.PlaybackStarted")
  = Val (Some {| alexa.OutputSpeech := None; alexa.Directives := None;
                 alexa.ShouldSessionEnd := true |}, None).
Proof. vm_compute; reflexivity. Defined.

Lemma handleAudio_response_witness :
  alexa.handleAudio jukebox Background (audio "AudioPlayer.PlaybackStarted")
    = Val (Some {| alexa.OutputSpeech := None; alexa.Directives := None;
                   alexa.ShouldSessionEnd := true |}, None)
  /\ @None error = None.
Proof.
  split; [exact jukebox_answer|].
  exact (proj1 (alexa_more.handleAudio_response _ _ _ _ _ jukebox_answer)).
Defined.

Lemma strict_answer :
  @alexa.Handle canned.stdlib (app skill) Background
     (envelope (Some (session skill)) stamp) now
  = Val (Some {| alexa.RespVersion := "1.0"; alexa.SessionAttributes := None;
                 alexa.Response_ := Some welcome |}, None).
Proof. vm_compute; reflexivity. Defined.

Lemma Handle_sound_witness :
  @alexa.Handle canned.stdlib (app skill) Background
     (envelope (Some (session skill)) stamp) now
    = Val (Some {| alexa.RespVersion := "1.0"; alexa.SessionAttributes := None;
                   alexa.Response_ := Some welcome |}, None)
  /\ exists sess req ts,
       alexa.Session_ (envelope (Some (session skill)) stamp) = Some sess
       /\ alexa.ApplicationID (alexa.Application sess) <> ""
       /\ alexa.ApplicationID (alexa.Application sess)
          = alexa.App_ApplicationID (alexa.App_ (app skill))
       /\ alexa.Request_ (envelope (Some (session skill)) stamp) = Some req
       /\ @time_Parse_RFC3339 canned.stdlib (alexa.Timestamp req) = inl ts
       /\ Z.abs (spec.elapsed now ts) <= 150 * 1000000000
       /\ alexa.App_Handle (alexa.App_ (app skill)) Background
            (envelope (Some (session skill)) stamp)
          = Val (Some {| alexa.RespVersion := "1.0"; alexa.SessionAttributes := None;
                         alexa.Response_ := Some welcome |}, None).
Proof.
  split; [exact strict_answer|].
  exact (@alexa_more.Handle_sound canned.stdlib _ _ _ _ _ _ strict_answer).
Defined.

(** ** package lambda and the basic example *)

Lemma NewDebugHandler_result_witness :
  failer Background zero = Val (None, Some (errorString "boom"))
  /\ snd (@lambda.NewDebugHandler json runtime failer Background zero)
     = Val (None, None).
Proof.
  split; [reflexivity|].
  exact (@lambda_proofs.NewDebugHandler_result json runtime failer Background zero
           None (Some (errorString "boom")) eq_refl).
Defined.


Lemma NewDebugHandler_panic_witness :
  alexa.App_Handle (basic.newApp skill) Background zero = Panicked NilDereference
  /\ snd (@lambda.NewDebugHandler json runtime
            (alexa.App_Handle (basic.newApp skill)) Background zero)
     = Panicked NilDereference.
Proof.
  split; [reflexivity|].
  exact (proj1 (@lambda_proofs.NewDebugHandler_panic json runtime
                  (alexa.App_Handle (basic.newApp skill)) Background zero
                  NilDereference eq_refl)).
Defined.

Lemma other_is_not_stop : "Other" <> "AMAZON.StopIntent".
Proof. intros Heq. discriminate Heq. Defined.

Lemma basic_unknown_intent_witness :
  alexa.Request_ (intent "Other") <> None
  /\ snd (@basic.handler json runtime skill Background (intent "Other"))
     = Val (None, None).
Proof.
  split; [intros Heq; discriminate Heq|].
  exact (proj2 (@lambda_proofs.basic_unknown_intent json runtime skill Background
                  (intent "Other") _ (str "null") eq_refl eq_refl other_is_not_stop
                  eq_refl)).
Defined.

Lemma basic_stop_intent_witness :
  alexa.Request_ (intent "AMAZON.StopIntent") <> None
  /\ alexa.App_Handle (basic.newApp skill) Background (intent "AMAZON.StopIntent")
     = Val (Some {| alexa.RespVersion := "1.0";
                    alexa.SessionAttributes := None;
                    alexa.Response_ :=
                      Some {| alexa.OutputSpeech := Some ("PlainText", "Goodbye");
                              alexa.Directives := None;
                              alexa.ShouldSessionEnd := true |} |}, None).
Proof.
  split; [intros Heq; discriminate Heq|].
  exact (lambda_proofs.basic_stop_intent skill Background
           (intent "AMAZON.StopIntent") _ eq_refl eq_refl eq_refl).
Defined.

Lemma basic_audio_panics_witness :
  "AudioPlayer.PlaybackStarted" ∈ kinds.audio_types
  /\ snd (@basic.handler json runtime skill Background
            (audio "AudioPlayer.PlaybackStarted"))
     = Panicked NilDereference.
Proof.
  split; [exact started_is_audio|].
  exact (proj2 (@lambda_proofs.basic_audio_panics json runtime skill Background
                  (audio "AudioPlayer.PlaybackStarted") _ eq_refl started_is_audio)).
Defined.

End more_examples.

(* ===================================================================== *)
(** * The refused URL and the last second of the window                   *)
(* ===================================================================== *)

Module edges.
Import golang canned.

(** The string [":"] has no scheme before its colon and does not parse. *)
Lemma verifyCertURL_parse_error_witness :
  @url_Parse canned.stdlib badURL = inr "missing protocol scheme"
  /\ @server.verifyCertURL canned.stdlib badURL = Panicked NilDereference
  /\ @server.NewValidatingHandler canned.stdlib certReader now (request badURL "c2ln")
     = ([], Panicked NilDereference).
Proof.
  split; [reflexivity|].
  destruct (@server_proofs.verifyCertURL_parse_error canned.stdlib badURL
              "missing protocol scheme" eq_refl) as (Hpanic & _ & Hreq).
  split; [exact Hpanic|].
  apply (Hreq (request badURL "c2ln") certReader now). vm_compute; reflexivity.
Defined.

Section Window.
Context `{Stdlib}.

(** A time within the window to the nanosecond is within it to the second,
    so the check lets it through; the converse is what fails. *)
Lemma within_Unix (now : Time) (cert : Certificate) :
  instants.within now cert ->
  Unix (NotBefore cert) <= Unix now <= Unix (NotAfter cert).
Proof. unfold instants.within, instants.not_after, Unix. lia. Qed.

Lemma within_not_expired r certReader now cert :
  spec.resolves r certReader cert -> instants.within now cert ->
  server.readValidateCertificate r certReader now
    <> Val (None, Some (errors_New "certificate expired")).
Proof.
  intros Hres Hin. apply within_Unix in Hin.
  rewrite (server_proofs.readValidateCertificate_resolved _ _ now _ Hres).
  apply server_proofs.expired_iff in Hin. rewrite Hin.
  by destruct (negb _).
Qed.

End Window.

(** The canned certificate, 999999999 ns after its NotAfter: the current
    time lies outside the window and the certificate is accepted. *)
Lemma temporal_check_counterexample :
  ~ @instants.lets_through_iff_within canned.stdlib signed certReader
      instants.late rsaCert.
Proof.
  intros Hclaim. specialize (Hclaim examples.signed_resolves).
  assert (@server.readValidateCertificate canned.stdlib signed certReader
            instants.late = Val (Some rsaCert, None)) as Hacc
    by (vm_compute; reflexivity).
  assert (instants.within instants.late rsaCert) as [_ Hlate].
  { apply Hclaim. rewrite Hacc. discriminate. }
  unfold instants.not_after, instants.late in Hlate. simpl in Hlate. lia.
Qed.

Example late_is_accepted :
  @server.readValidateCertificate canned.stdlib signed certReader instants.late
  = Val (Some rsaCert, None).
Proof. vm_compute; reflexivity. Qed.

End edges.
